(** * KEDB: entry lifecycle and review approval

    A shallow embedding of the entry workflow and of the review workflow of
    the KEDB backend:

    - [app/core/exceptions.py]          the exception classes,
    - [app/schemas/review.py]           the request schemas of a review,
    - [app/repositories/base.py],
      [app/repositories/entry_repo.py],
      [app/repositories/review_repo.py] the repositories,
    - [app/services/entry_service.py],
      [app/services/review_service.py]  the services.

    The SQLAlchemy session is a record of three tables.  A coroutine of a
    repository or of a service is a function from the session to a result
    (an exception or a value) and the session it leaves behind, so that a
    write issued before an exception stays visible in the model. *)

From Stdlib Require Import ZArith.
From stdpp Require Import gmap strings list fin_maps.

Open Scope string_scope.

(** ** Data model *)

(** A [UUID] is kept in its textual form, the one an f-string prints. *)
Abbreviation UUID := string (only parsing).

(** [datetime.now(timezone.utc)], as a number of microseconds. *)
Abbreviation datetime := Z (only parsing).

(** A [str] is kept as the bytes of its UTF-8 form.  A byte from 0x80 to
    0xBF continues a character; every other byte starts one. *)
Definition continuation_byte (byte : Ascii.ascii) : bool :=
  match byte with
  | Ascii.Ascii _ _ _ _ _ _ bit6 bit7 => bit7 && negb bit6
  end.

(** [len] of a [str]: the number of its characters. *)
Fixpoint len (s : string) : nat :=
  match s with
  | EmptyString => 0
  | String byte rest =>
      if continuation_byte byte then len rest else S (len rest)
  end.

(** The ORM classes of [app/models] are not among the sources.  The
    primary key [id] of an entry and of a review is the key of its table in
    the session. *)
Module Entry.
(** Modelled from the spec: the class [Entry] of [app/models/entry.py] is
    missing; the columns are those of Entry in section 3 of the
    specification, the ones [EntryResponse] of [app/schemas/entry.py]
    lists. *)
Record t : Type := mk {
  title : string;
  description : string;
  severity : string;
  root_cause : option string;
  workflow_state : string;
  created_by : string;
  approved_by : option string;
  approved_at : option datetime;
  merged_into_id : option UUID
}.

Definition set_workflow_state (v : string) (e : t) : t :=
  mk (title e) (description e) (severity e) (root_cause e) v (created_by e)
     (approved_by e) (approved_at e) (merged_into_id e).

Definition set_approved_by (v : option string) (e : t) : t :=
  mk (title e) (description e) (severity e) (root_cause e) (workflow_state e)
     (created_by e) v (approved_at e) (merged_into_id e).

Definition set_approved_at (v : option datetime) (e : t) : t :=
  mk (title e) (description e) (severity e) (root_cause e) (workflow_state e)
     (created_by e) (approved_by e) v (merged_into_id e).

Definition set_title (v : string) (e : t) : t :=
  mk v (description e) (severity e) (root_cause e) (workflow_state e)
     (created_by e) (approved_by e) (approved_at e) (merged_into_id e).

Definition set_description (v : string) (e : t) : t :=
  mk (title e) v (severity e) (root_cause e) (workflow_state e)
     (created_by e) (approved_by e) (approved_at e) (merged_into_id e).

Definition set_severity (v : string) (e : t) : t :=
  mk (title e) (description e) v (root_cause e) (workflow_state e)
     (created_by e) (approved_by e) (approved_at e) (merged_into_id e).

Definition set_root_cause (v : option string) (e : t) : t :=
  mk (title e) (description e) (severity e) v (workflow_state e)
     (created_by e) (approved_by e) (approved_at e) (merged_into_id e).
End Entry.

Module Review.
(** Modelled from the spec: the class [Review] of [app/models/review.py]
    is missing; the columns are those of Review in section 3 of the
    specification, the ones [ReviewResponse] lists. *)
Record t : Type := mk {
  entry_id : UUID;
  status : string;
  rca_text : option string
}.

Definition set_status (v : string) (r : t) : t :=
  mk (entry_id r) v (rca_text r).
End Review.

Module ReviewParticipant.
(** Modelled from the spec: the class [ReviewParticipant] of
    [app/models/review.py] is missing; the columns are those of
    ReviewParticipant in section 3 of the specification, the ones
    [ReviewParticipantResponse] lists.  The table is kept as the list of
    its rows. *)
Record t : Type := mk {
  review_id : UUID;
  user_id : string;
  role : string;
  approved_at : option datetime
}.

Definition set_approved_at (v : option datetime) (p : t) : t :=
  mk (review_id p) (user_id p) (role p) v.
End ReviewParticipant.

(** Request schemas of [app/schemas/review.py]. *)
Module ReviewParticipantCreate.
Record t : Type := mk {
  user_id : string;
  role : string
}.

(** [user_id: str = Field(..., min_length=1, max_length=255)] and
    [role: str = Field(..., pattern="^(lead|reviewer|observer)$")]; the two
    lengths are in characters. *)
Definition valid (p : t) : bool :=
  (1 <=? len (user_id p))%nat
  && (len (user_id p) <=? 255)%nat
  && bool_decide (role p ∈ ["lead"; "reviewer"; "observer"]).
End ReviewParticipantCreate.

Module ReviewCreate.
Record t : Type := mk {
  rca_text : option string;
  participants : option (list ReviewParticipantCreate.t)
}.
End ReviewCreate.

Module ReviewDecision.
Record t : Type := mk {
  status : string;
  comment : option string
}.
End ReviewDecision.

(** [EntryUpdate] of [app/schemas/entry.py]: every field is optional.  A
    field left out of the request and a field sent as [null] are both
    [None] here: [model_dump(exclude_unset=True)] drops the first and
    [BaseRepository.update] skips the second. *)
Module EntryUpdate.
Record t : Type := mk {
  title : option string;
  description : option string;
  severity : option string;
  root_cause : option string
}.
End EntryUpdate.

(** A review as [get_with_participants] returns it: the row and the
    participants that [selectinload(Review.participants)] attaches. *)
Record LoadedReview : Type := mkLoaded {
  loaded_id : UUID;
  loaded_row : Review.t;
  loaded_participants : list ReviewParticipant.t
}.

(** ** Exceptions *)

(** The classes of [app/core/exceptions.py] that the two services raise,
    with their message, and the two exceptions of SQLAlchemy that the
    repositories let through: [scalar_one_or_none] on more than one row and
    a flush that inserts a primary key already in the table. *)
Inductive Exception : Type :=
| NotFoundError (msg : string)
| ValidationError (msg : string)
| WorkflowError (msg : string)
| MultipleResultsFound
| IntegrityError.

(** ** The session and its coroutines *)

Record Session : Type := mkSession {
  entries : gmap string Entry.t;
  reviews : gmap string Review.t;
  review_participants : list ReviewParticipant.t
}.

Definition set_entries (f : gmap string Entry.t → gmap string Entry.t)
    (db : Session) : Session :=
  mkSession (f (entries db)) (reviews db) (review_participants db).

Definition set_reviews (f : gmap string Review.t → gmap string Review.t)
    (db : Session) : Session :=
  mkSession (entries db) (f (reviews db)) (review_participants db).

Definition set_review_participants
    (f : list ReviewParticipant.t → list ReviewParticipant.t)
    (db : Session) : Session :=
  mkSession (entries db) (reviews db) (f (review_participants db)).

Inductive Outcome (A : Type) : Type :=
| Raised (e : Exception)
| Returned (a : A).
Arguments Raised {A} e.
Arguments Returned {A} a.

Definition Coro (A : Type) : Type := Session → Outcome A * Session.

Definition ret {A} (a : A) : Coro A := λ db, (Returned a, db).

Definition raise {A} (e : Exception) : Coro A := λ db, (Raised e, db).

Definition bind {A B} (m : Coro A) (k : A → Coro B) : Coro B :=
  λ db, match m db with
        | (Raised e, db') => (Raised e, db')
        | (Returned a, db') => k a db'
        end.

(** A read of the session, and a write that [flush] sends to it. *)
Definition query {A} (f : Session → A) : Coro A :=
  λ db, (Returned (f db), db).

Definition write (f : Session → Session) : Coro unit :=
  λ db, (Returned tt, f db).

Declare Scope coro_scope.
Delimit Scope coro_scope with coro.
Notation "'await' x ':=' m 'in' k" := (bind m (λ x, k))
  (at level 10, x name, m at level 100, k at level 200) : coro_scope.
Notation "'await_' m 'in' k" := (bind m (λ _, k))
  (at level 10, m at level 100, k at level 200) : coro_scope.
Open Scope coro_scope.

(** Truth value of an [Optional[str]]: [None] and the empty string are
    false. *)
Definition truthy_str (o : option string) : bool :=
  match o with
  | Some s => negb (bool_decide (s = ""))
  | None => false
  end.

(** Truth value of an [Optional[List]]: [None] and the empty list are
    false. *)
Definition truthy_list {A} (o : option (list A)) : bool :=
  match o with
  | Some (_ :: _) => true
  | _ => false
  end.

(** ** Repositories *)

(** [app/repositories/entry_repo.py], with [get] of [BaseRepository]. *)
Module EntryRepository.

(** [select(Entry).where(Entry.id == id)], [scalar_one_or_none()]: the
    primary key selects at most one row. *)
Definition get (id : UUID) : Coro (option Entry.t) :=
  query (λ db, entries db !! id).

(** The object [get] returns is the row of the session: the attribute
    writes land on it and [flush] sends them to the table. *)
Definition update_workflow_state (now : datetime) (id : UUID)
    (new_state : string) (approved_by : option string)
    : Coro (option Entry.t) :=
  await entry := get id in
  match entry with
  | None => ret None
  | Some entry =>
      let entry := Entry.set_workflow_state new_state entry in
      let entry :=
        if truthy_str approved_by
        then Entry.set_approved_at (Some now)
               (Entry.set_approved_by approved_by entry)
        else entry in
      await_ write (set_entries (insert id entry)) in
      ret (Some entry)
  end.

(** [selectinload] attaches the symptoms, incidents, solutions and tags
    of the entry; their tables are outside the session of this development
    and the entry row is what the result carries here. *)
Definition get_with_relations (id : UUID) : Coro (option Entry.t) :=
  query (λ db, entries db !! id).

(** [setattr(db_obj, field, value)] for one field of the request, skipped
    when the value is [None]. *)
Definition set_if_given {A} (set : A → Entry.t → Entry.t) (value : option A)
    (db_obj : Entry.t) : Entry.t :=
  match value with
  | Some v => set v db_obj
  | None => db_obj
  end.

(** [update] of [BaseRepository], on entries; [obj_in] is the dump of an
    [EntryUpdate], whose four keys are columns of the entry. *)
Definition update (id : UUID) (obj_in : EntryUpdate.t)
    : Coro (option Entry.t) :=
  await db_obj := get id in
  match db_obj with
  | None => ret None
  | Some db_obj =>
      let db_obj :=
        set_if_given Entry.set_title (EntryUpdate.title obj_in) db_obj in
      let db_obj :=
        set_if_given Entry.set_description (EntryUpdate.description obj_in)
          db_obj in
      let db_obj :=
        set_if_given Entry.set_severity (EntryUpdate.severity obj_in)
          db_obj in
      let db_obj :=
        set_if_given (λ v, Entry.set_root_cause (Some v))
          (EntryUpdate.root_cause obj_in) db_obj in
      await_ write (set_entries (insert id db_obj)) in
      ret (Some db_obj)
  end.

End EntryRepository.

(** [app/repositories/review_repo.py], with [get] of [BaseRepository]. *)
Module ReviewRepository.

Definition get (id : UUID) : Coro (option Review.t) :=
  query (λ db, reviews db !! id).

(** [review.participants]: the rows of [review_participants] whose
    [review_id] is the review. *)
Definition participants_of (id : UUID) (db : Session)
    : list ReviewParticipant.t :=
  filter (λ p, ReviewParticipant.review_id p = id) (review_participants db).

Definition get_with_participants (id : UUID) : Coro (option LoadedReview) :=
  query (λ db, match reviews db !! id with
               | Some r => Some (mkLoaded id r (participants_of id db))
               | None => None
               end).

(** [ReviewParticipant(review_id=review.id, **participant_data)]: a new
    participant has not approved yet. *)
Definition new_participant (review_id : UUID)
    (participant_data : ReviewParticipantCreate.t) : ReviewParticipant.t :=
  ReviewParticipant.mk review_id
    (ReviewParticipantCreate.user_id participant_data)
    (ReviewParticipantCreate.role participant_data) None.

(** [new_id] is the primary key that the constructor of [Review] draws
    for the row; the first [flush] raises when the key is already taken.  The
    result is the key of the new row ([review.id] is all the caller
    reads). *)
Definition create_with_participants (new_id : UUID) (review_data : Review.t)
    (participants : option (list ReviewParticipantCreate.t)) : Coro UUID :=
  await taken := get new_id in
  match taken with
  | Some _ => raise IntegrityError
  | None =>
      await_ write (set_reviews (insert new_id review_data)) in
      await_ (if truthy_list participants
              then write (set_review_participants
                            (λ rows,
                               (rows ++ map (new_participant new_id)
                                          (default [] participants))%list))
              else ret tt) in
      ret new_id
  end.

Definition update_status (id : UUID) (new_status : string)
    : Coro (option Review.t) :=
  await review := get id in
  match review with
  | None => ret None
  | Some review =>
      let review := Review.set_status new_status review in
      await_ write (set_reviews (insert id review)) in
      ret (Some review)
  end.

(** The row that the query of [approve_by_participant] selects. *)
Definition is_participant (review_id : UUID) (user_id : string)
    (p : ReviewParticipant.t) : Prop :=
  ReviewParticipant.review_id p = review_id
  ∧ ReviewParticipant.user_id p = user_id.

#[global] Instance is_participant_dec review_id user_id p :
  Decision (is_participant review_id user_id p).
Proof. unfold is_participant. apply _. Defined.

(** [scalar_one_or_none()]: no row is [None], one row is the row, more
    rows raise.  The row found is written in place. *)
Definition approve_by_participant (now : datetime) (review_id : UUID)
    (user_id : string) : Coro (option ReviewParticipant.t) :=
  await result := query (λ db, filter (is_participant review_id user_id)
                                 (review_participants db)) in
  match result with
  | [] => ret None
  | [participant] =>
      let participant :=
        ReviewParticipant.set_approved_at (Some now) participant in
      await_ write (set_review_participants
                      (map (λ p, if decide (is_participant review_id user_id p)
                                 then ReviewParticipant.set_approved_at
                                        (Some now) p
                                 else p))) in
      ret (Some participant)
  | _ => raise MultipleResultsFound
  end.

End ReviewRepository.

(** ** Services *)

(** [app/services/entry_service.py]. *)
Module EntryService.

Definition VALID_WORKFLOW_TRANSITIONS : gmap string (list string) :=
  list_to_map
    [ ("draft", ["in_review"; "retired"]);
      ("in_review", ["draft"; "published"; "retired"]);
      ("published", ["retired"; "merged"]);
      ("retired", []);
      ("merged", []) ].

(** [self.VALID_WORKFLOW_TRANSITIONS.get(current_state, [])]. *)
Definition valid_transitions (current_state : string) : list string :=
  default [] (VALID_WORKFLOW_TRANSITIONS !! current_state).

Definition delete_entry (now : datetime) (entry_id : UUID) : Coro bool :=
  await entry := EntryRepository.get entry_id in
  match entry with
  | None => raise (NotFoundError ("Entry " +:+ entry_id +:+ " not found"))
  | Some _ =>
      await_ EntryRepository.update_workflow_state now entry_id "retired"
               None in
      ret true
  end.

Definition invalid_transition (current_state new_state : string) : string :=
  "Invalid transition from " +:+ current_state +:+ " to " +:+ new_state
  +:+ ". " +:+ "Valid transitions: "
  +:+ String.concat ", " (valid_transitions current_state).

Definition transition_workflow (now : datetime) (entry_id : UUID)
    (new_state : string) (approved_by : option string)
    : Coro (option Entry.t) :=
  await entry := EntryRepository.get entry_id in
  match entry with
  | None => raise (NotFoundError ("Entry " +:+ entry_id +:+ " not found"))
  | Some entry =>
      let current_state := Entry.workflow_state entry in
      if bool_decide (new_state ∉ valid_transitions current_state)
      then raise (WorkflowError (invalid_transition current_state new_state))
      else EntryRepository.update_workflow_state now entry_id new_state
             approved_by
  end.

Definition get_entry (entry_id : UUID) : Coro Entry.t :=
  await entry := EntryRepository.get_with_relations entry_id in
  match entry with
  | None => raise (NotFoundError ("Entry " +:+ entry_id +:+ " not found"))
  | Some entry => ret entry
  end.

Definition update_entry (entry_id : UUID) (entry_data : EntryUpdate.t)
    : Coro (option Entry.t) :=
  await entry := EntryRepository.get entry_id in
  match entry with
  | None => raise (NotFoundError ("Entry " +:+ entry_id +:+ " not found"))
  | Some entry =>
      if bool_decide (Entry.workflow_state entry ∉ ["draft"; "in_review"])
      then raise (WorkflowError
                    ("Cannot update entry in " +:+ Entry.workflow_state entry
                     +:+ " state"))
      else
        await_ EntryRepository.update entry_id entry_data in
        EntryRepository.get_with_relations entry_id
  end.

End EntryService.

(** [app/services/review_service.py]. *)
Module ReviewService.

(** [created_by] is received and not used. *)
Definition create_review (now : datetime) (new_id : UUID) (entry_id : UUID)
    (review_data : ReviewCreate.t) (created_by : string)
    : Coro (option LoadedReview) :=
  await entry := EntryRepository.get entry_id in
  match entry with
  | None => raise (NotFoundError ("Entry " +:+ entry_id +:+ " not found"))
  | Some entry =>
      if bool_decide (Entry.workflow_state entry ≠ "draft")
      then raise (WorkflowError
                    ("Entry must be in draft state to create review. "
                     +:+ "Current state: " +:+ Entry.workflow_state entry))
      else
        let data_dict :=
          Review.mk entry_id "pending" (ReviewCreate.rca_text review_data) in
        let participants :=
          if truthy_list (ReviewCreate.participants review_data)
          then ReviewCreate.participants review_data
          else None in
        await review :=
          ReviewRepository.create_with_participants new_id data_dict
            participants in
        await_ EntryRepository.update_workflow_state now entry_id "in_review"
                 None in
        ReviewRepository.get_with_participants review
  end.

Definition add_participant (review_id : UUID)
    (participant_data : ReviewParticipantCreate.t)
    : Coro ReviewParticipant.t :=
  await review := ReviewRepository.get review_id in
  match review with
  | None => raise (NotFoundError ("Review " +:+ review_id +:+ " not found"))
  | Some review =>
      if bool_decide (Review.status review ≠ "pending")
      then raise (ValidationError
                    ("Cannot add participants to " +:+ Review.status review
                     +:+ " review"))
      else
        let participant :=
          ReviewRepository.new_participant review_id participant_data in
        await_ write (set_review_participants
                        (λ rows, (rows ++ [participant])%list)) in
        ret participant
  end.

(** The loop over [review.participants] that stops at the first row of
    the user. *)
Definition find_participant (user_id : string)
    (participants : list ReviewParticipant.t) : option ReviewParticipant.t :=
  List.find (λ p, bool_decide (ReviewParticipant.user_id p = user_id))
    participants.

(** [review] is read once; of the later writes only [update_status]
    touches its row, and it leaves [entry_id] as it is, so that
    [review.entry_id] is the value read at the start.  The clock is read
    twice: [now] by [approve_by_participant], [later] by
    [update_workflow_state]. *)
Definition submit_decision (now later : datetime) (review_id : UUID)
    (decision : ReviewDecision.t) (user_id : string)
    : Coro (option LoadedReview) :=
  await review := ReviewRepository.get_with_participants review_id in
  match review with
  | None => raise (NotFoundError ("Review " +:+ review_id +:+ " not found"))
  | Some review =>
      let status := Review.status (loaded_row review) in
      let entry_id := Review.entry_id (loaded_row review) in
      if bool_decide (status ≠ "pending")
      then raise (ValidationError ("Review is already " +:+ status))
      else
        match find_participant user_id (loaded_participants review) with
        | None =>
            raise (ValidationError
                     ("User " +:+ user_id
                      +:+ " is not a participant in this review"))
        | Some _ =>
            await_ ReviewRepository.update_status review_id
                     (ReviewDecision.status decision) in
            await_ (if bool_decide (ReviewDecision.status decision = "approved")
                    then ReviewRepository.approve_by_participant now review_id
                           user_id
                    else ret None) in
            await entry := EntryRepository.get entry_id in
            await_ (if bool_decide (ReviewDecision.status decision = "approved")
                    then EntryRepository.update_workflow_state later entry_id
                           "published" (Some user_id)
                    else if bool_decide
                              (ReviewDecision.status decision = "rejected")
                    then EntryRepository.update_workflow_state later entry_id
                           "draft" None
                    else if bool_decide
                              (ReviewDecision.status decision
                               = "changes_requested")
                    then EntryRepository.update_workflow_state later entry_id
                           "draft" None
                    else ret None) in
            ReviewRepository.get_with_participants review_id
        end
  end.

Definition get_review (review_id : UUID) : Coro LoadedReview :=
  await review := ReviewRepository.get_with_participants review_id in
  match review with
  | None => raise (NotFoundError ("Review " +:+ review_id +:+ " not found"))
  | Some review => ret review
  end.

End ReviewService.

(** ** Endpoints *)

(** What a route answers: the status code of its decorator with the value
    it returns, or the [HTTPException] it raises.  [detail] is [str(e)],
    kept as the exception it prints. *)
Inductive Response (A : Type) : Type :=
| Answer (status_code : nat) (body : A)
| HTTPException (status_code : nat) (detail : Exception).
Arguments Answer {A} status_code body.
Arguments HTTPException {A} status_code detail.

(** A route runs a service on the session that [get_db] hands it
    ([app/api/deps.py] is not among the sources: the session starts on the
    stored rows); [commit] stores the rows of the session, [rollback]
    leaves the stored rows. *)
Definition Route (A : Type) : Type := Session → Response A * Session.

(** [app/api/v1/endpoints/reviews.py]. *)
Module ReviewEndpoints.

Definition create_review (now : datetime) (new_id : UUID) (entry_id : UUID)
    (review : ReviewCreate.t) (created_by : string)
    : Route (option LoadedReview) :=
  λ stored,
    match ReviewService.create_review now new_id entry_id review created_by
            stored with
    | (Returned result, db) => (Answer 201 result, db)
    | (Raised (NotFoundError msg), _) =>
        (HTTPException 404 (NotFoundError msg), stored)
    | (Raised (WorkflowError msg), _) =>
        (HTTPException 400 (WorkflowError msg), stored)
    | (Raised e, _) => (HTTPException 500 e, stored)
    end.

(** A read: nothing is committed and nothing is rolled back. *)
Definition get_review (review_id : UUID) : Route LoadedReview :=
  λ stored,
    match ReviewService.get_review review_id stored with
    | (Returned result, _) => (Answer 200 result, stored)
    | (Raised (NotFoundError msg), _) =>
        (HTTPException 404 (NotFoundError msg), stored)
    | (Raised e, _) => (HTTPException 500 e, stored)
    end.

Definition add_participant (review_id : UUID)
    (participant : ReviewParticipantCreate.t) : Route ReviewParticipant.t :=
  λ stored,
    match ReviewService.add_participant review_id participant stored with
    | (Returned result, db) => (Answer 201 result, db)
    | (Raised (NotFoundError msg), _) =>
        (HTTPException 404 (NotFoundError msg), stored)
    | (Raised (ValidationError msg), _) =>
        (HTTPException 400 (ValidationError msg), stored)
    | (Raised e, _) => (HTTPException 500 e, stored)
    end.

Definition submit_decision (now later : datetime) (review_id : UUID)
    (decision : ReviewDecision.t) (user_id : string)
    : Route (option LoadedReview) :=
  λ stored,
    match ReviewService.submit_decision now later review_id decision user_id
            stored with
    | (Returned result, db) => (Answer 200 result, db)
    | (Raised (NotFoundError msg), _) =>
        (HTTPException 404 (NotFoundError msg), stored)
    | (Raised (ValidationError msg), _) =>
        (HTTPException 400 (ValidationError msg), stored)
    | (Raised e, _) => (HTTPException 500 e, stored)
    end.

End ReviewEndpoints.

(** [app/api/v1/endpoints/entries.py], the routes of one entry. *)
Module EntryEndpoints.

Definition get_entry (entry_id : UUID) : Route Entry.t :=
  λ stored,
    match EntryService.get_entry entry_id stored with
    | (Returned result, _) => (Answer 200 result, stored)
    | (Raised (NotFoundError msg), _) =>
        (HTTPException 404 (NotFoundError msg), stored)
    | (Raised e, _) => (HTTPException 500 e, stored)
    end.

Definition update_entry (entry_id : UUID) (entry : EntryUpdate.t)
    : Route (option Entry.t) :=
  λ stored,
    match EntryService.update_entry entry_id entry stored with
    | (Returned result, db) => (Answer 200 result, db)
    | (Raised (NotFoundError msg), _) =>
        (HTTPException 404 (NotFoundError msg), stored)
    | (Raised (WorkflowError msg), _) =>
        (HTTPException 400 (WorkflowError msg), stored)
    | (Raised e, _) => (HTTPException 500 e, stored)
    end.

(** The route answers 204 with no body. *)
Definition delete_entry (now : datetime) (entry_id : UUID) : Route unit :=
  λ stored,
    match EntryService.delete_entry now entry_id stored with
    | (Returned _, db) => (Answer 204 tt, db)
    | (Raised (NotFoundError msg), _) =>
        (HTTPException 404 (NotFoundError msg), stored)
    | (Raised e, _) => (HTTPException 500 e, stored)
    end.

End EntryEndpoints.

(** ** One pending review for an entry *)

(** No two pending reviews are on the same entry, and no pending review is
    on a draft. *)
Definition one_pending_review (db : Session) : Prop :=
  (∀ id1 id2 review1 review2,
     reviews db !! id1 = Some review1 →
     reviews db !! id2 = Some review2 →
     Review.status review1 = "pending" →
     Review.status review2 = "pending" →
     Review.entry_id review1 = Review.entry_id review2 →
     id1 = id2)
  ∧ (∀ id review entry,
       reviews db !! id = Some review →
       Review.status review = "pending" →
       entries db !! Review.entry_id review = Some entry →
       Entry.workflow_state entry ≠ "draft").

(** ** The transition table of the specification *)

(** The table as the specification writes it, one pair for each allowed
    move: draft to in_review or retired, in_review to draft, published or
    retired, published to retired or merged, nothing from retired or
    merged. *)
Definition spec_table : list (string * string) :=
  [ ("draft", "in_review"); ("draft", "retired");
    ("in_review", "draft"); ("in_review", "published");
    ("in_review", "retired");
    ("published", "retired"); ("published", "merged") ].

(** ** The sessions that the writes leave *)

(** The row that [update_workflow_state] leaves for an entry. *)
Definition stamped (now : datetime) (new_state : string)
    (approved_by : option string) (entry : Entry.t) : Entry.t :=
  if truthy_str approved_by
  then Entry.set_approved_at (Some now)
         (Entry.set_approved_by approved_by
            (Entry.set_workflow_state new_state entry))
  else Entry.set_workflow_state new_state entry.

(** The participants after [approve_by_participant] has found its row. *)
Definition mark_approved (now : datetime) (review_id : UUID) (user_id : string)
    (rows : list ReviewParticipant.t) : list ReviewParticipant.t :=
  map (λ p, if decide (ReviewRepository.is_participant review_id user_id p)
            then ReviewParticipant.set_approved_at (Some now) p
            else p) rows.

(** The entries that an accepted decision leaves. *)
Definition decided_entries (later : datetime) (status user_id : string)
    (entry_id : UUID) (rows : gmap string Entry.t) : gmap string Entry.t :=
  match rows !! entry_id with
  | Some entry =>
      if bool_decide (status = "approved")
      then <[entry_id := stamped later "published" (Some user_id) entry]> rows
      else if bool_decide (status = "rejected")
      then <[entry_id := stamped later "draft" None entry]> rows
      else if bool_decide (status = "changes_requested")
      then <[entry_id := stamped later "draft" None entry]> rows
      else rows
  | None => rows
  end.

(** The session that an accepted decision leaves. *)
Definition decided (now later : datetime) (review_id : UUID)
    (status user_id : string) (review : Review.t) (db : Session) : Session :=
  mkSession
    (decided_entries later status user_id (Review.entry_id review)
       (entries db))
    (<[review_id := Review.set_status status review]> (reviews db))
    (if bool_decide (status = "approved")
     then mark_approved now review_id user_id (review_participants db)
     else review_participants db).

(** The row that [update] of the repository leaves for an entry. *)
Definition updated (obj_in : EntryUpdate.t) (entry : Entry.t) : Entry.t :=
  EntryRepository.set_if_given (λ v, Entry.set_root_cause (Some v))
    (EntryUpdate.root_cause obj_in)
    (EntryRepository.set_if_given Entry.set_severity
       (EntryUpdate.severity obj_in)
       (EntryRepository.set_if_given Entry.set_description
          (EntryUpdate.description obj_in)
          (EntryRepository.set_if_given Entry.set_title
             (EntryUpdate.title obj_in) entry))).

(** ** The schema of the participants *)

(** Every participant row carries a user id that is not empty: what
    [min_length=1] of [ReviewParticipantBase.user_id] leaves in the table. *)
Definition participants_named (db : Session) : Prop :=
  Forall (λ p, ReviewParticipant.user_id p ≠ "") (review_participants db).

(** ** Reviews have their entry *)

(** The entry of every review is in the session. *)
Definition reviews_have_entries (db : Session) : Prop :=
  ∀ id review,
    reviews db !! id = Some review →
    is_Some (entries db !! Review.entry_id review).

(** ** Rows are kept *)

(** From [db] to [db'] no entry is created or removed, no review is
    removed and the participants do not get fewer. *)
Definition keeps_rows (db db' : Session) : Prop :=
  dom (entries db') = dom (entries db)
  ∧ dom (reviews db) ⊆ dom (reviews db')
  ∧ (length (review_participants db)
     ≤ length (review_participants db'))%nat.

(** ** Sample sessions *)

(** A draft entry that carol wrote, and the session that holds only it. *)
Definition sample_entry : Entry.t :=
  Entry.mk "Disk full on db-01" "The data volume ran out of space" "high"
    None "draft" "carol" None None None.

Definition db_draft : Session := mkSession {[ "e1" := sample_entry ]} ∅ [].

Definition sample_review : ReviewCreate.t :=
  ReviewCreate.mk None
    (Some [ ReviewParticipantCreate.mk "alice" "lead";
            ReviewParticipantCreate.mk "bob" "reviewer" ]).

Definition approve : ReviewDecision.t := ReviewDecision.mk "approved" None.

Definition changes_requested : ReviewDecision.t :=
  ReviewDecision.mk "changes_requested" (Some "add the runbook").

(** The review "r1" is opened on the entry. *)
Definition db_in_review : Session :=
  (ReviewService.create_review 1 "r1" "e1" sample_review "carol" db_draft).2.

(** The entry is deleted while "r1" is pending. *)
Definition db_retired : Session :=
  (EntryService.delete_entry 2 "e1" db_in_review).2.

(** Bob asks for changes on "r1": the entry is a draft again. *)
Definition db_changes : Session :=
  (ReviewService.submit_decision 2 3 "r1" changes_requested "bob"
     db_in_review).2.

(** Alice approves "r1". *)
Definition db_published : Session :=
  (ReviewService.submit_decision 3 4 "r1" approve "alice" db_in_review).2.

(** A pending review of an entry that the session does not hold. *)
Definition db_orphan : Session :=
  mkSession ∅ {[ "r1" := Review.mk "e9" "pending" None ]}
    [ ReviewParticipant.mk "r1" "alice" "lead" None ].


(** A merged entry. *)
Definition db_merged : Session :=
  mkSession
    {[ "e1" := Entry.set_workflow_state "merged" sample_entry ]} ∅ [].

(** Alice is added to "r1" a second time, as a reviewer. *)
Definition db_twice : Session :=
  (ReviewService.add_participant "r1"
     (ReviewParticipantCreate.mk "alice" "reviewer") db_in_review).2.

(** ** Proofs *)

(** *** The bookkeeping of coroutines *)

Ltac coro_unfold :=
  unfold bind, ret, raise, query, write.

Lemma bind_returned {A B} (m : Coro A) (k : A → Coro B) db a db' :
  m db = (Returned a, db') → bind m k db = k a db'.
Proof. intros H. unfold bind. by rewrite H. Qed.

Lemma bind_raised {A B} (m : Coro A) (k : A → Coro B) db e db' :
  m db = (Raised e, db') → bind m k db = (Raised e, db').
Proof. intros H. unfold bind. by rewrite H. Qed.

(** *** The table *)

Lemma valid_transitions_row current_state :
  EntryService.valid_transitions current_state =
    if decide (current_state = "draft") then ["in_review"; "retired"]
    else if decide (current_state = "in_review")
         then ["draft"; "published"; "retired"]
    else if decide (current_state = "published") then ["retired"; "merged"]
    else [].
Proof.
  unfold EntryService.valid_transitions,
    EntryService.VALID_WORKFLOW_TRANSITIONS.
  cbn [list_to_map foldr uncurry fst snd curry].
  repeat (rewrite lookup_insert; case_decide; subst; simplify_eq/=; try done).
  rewrite lookup_empty. by repeat case_decide.
Qed.

(** C1. The legality check that [transition_workflow] applies, membership
    of the target in the row that [VALID_WORKFLOW_TRANSITIONS] holds for
    the current state, accepts a pair of states exactly when the pair is
    in the table of the specification; nothing is accepted from "retired"
    or from "merged". *)
Theorem valid_transitions_matches_table (current target : string) :
  (target ∈ EntryService.valid_transitions current
   ↔ (current, target) ∈ spec_table)
  ∧ (EntryService.valid_transitions "retired" = []
     ∧ EntryService.valid_transitions "merged" = []).
Proof.
  split; [| by rewrite !valid_transitions_row].
  rewrite valid_transitions_row. unfold spec_table.
  destruct (decide (current = "draft")) as [->|Hd];
    [| destruct (decide (current = "in_review")) as [->|Hr];
       [| destruct (decide (current = "published")) as [->|Hp]]];
    rewrite ?elem_of_cons, ?elem_of_nil;
    (split; [intros Hin | intros Hin]);
    repeat (destruct Hin as [Hin|Hin]); simplify_eq; auto 10.
Qed.

(** *** The repositories *)

Lemma entry_get_eq id db :
  EntryRepository.get id db = (Returned (entries db !! id), db).
Proof. reflexivity. Qed.

Lemma update_workflow_state_some now id new_state approved_by db entry :
  entries db !! id = Some entry →
  EntryRepository.update_workflow_state now id new_state approved_by db =
    (Returned (Some (stamped now new_state approved_by entry)),
     set_entries (insert id (stamped now new_state approved_by entry)) db).
Proof.
  intros Hget. unfold EntryRepository.update_workflow_state.
  rewrite (bind_returned _ _ _ _ _ (entry_get_eq id db)), Hget.
  reflexivity.
Qed.

Lemma update_workflow_state_none now id new_state approved_by db :
  entries db !! id = None →
  EntryRepository.update_workflow_state now id new_state approved_by db =
    (Returned None, db).
Proof.
  intros Hget. unfold EntryRepository.update_workflow_state.
  rewrite (bind_returned _ _ _ _ _ (entry_get_eq id db)), Hget.
  reflexivity.
Qed.

Lemma stamped_workflow_state now new_state approved_by entry :
  Entry.workflow_state (stamped now new_state approved_by entry) = new_state.
Proof. unfold stamped. by destruct (truthy_str approved_by). Qed.

Lemma get_with_participants_some id db review :
  reviews db !! id = Some review →
  ReviewRepository.get_with_participants id db =
    (Returned (Some (mkLoaded id review
                       (ReviewRepository.participants_of id db))), db).
Proof.
  intros Hget. unfold ReviewRepository.get_with_participants, query.
  by rewrite Hget.
Qed.

Lemma update_status_some id new_status db review :
  reviews db !! id = Some review →
  ReviewRepository.update_status id new_status db =
    (Returned (Some (Review.set_status new_status review)),
     set_reviews (insert id (Review.set_status new_status review)) db).
Proof.
  intros Hget. unfold ReviewRepository.update_status, ReviewRepository.get.
  coro_unfold. by rewrite Hget.
Qed.

Lemma find_participant_none user_id participants :
  user_id ∉ map ReviewParticipant.user_id participants →
  ReviewService.find_participant user_id participants = None.
Proof.
  unfold ReviewService.find_participant.
  induction participants as [|p ps IH]; intros Hnot; [done|].
  cbn [map] in Hnot. rewrite not_elem_of_cons in Hnot.
  destruct Hnot as [Hne Hnot]. cbn [find].
  rewrite bool_decide_eq_false_2 by congruence. by apply IH.
Qed.

Lemma find_participant_some user_id participants :
  user_id ∈ map ReviewParticipant.user_id participants →
  is_Some (ReviewService.find_participant user_id participants).
Proof.
  unfold ReviewService.find_participant.
  induction participants as [|p ps IH]; cbn [map find]; intros Hin.
  - by apply elem_of_nil in Hin.
  - case_bool_decide as Hp; [by eexists|].
    apply elem_of_cons in Hin as [Heq|Hin]; [congruence | by apply IH].
Qed.

(** *** Refused requests *)

(** C9. On an existing entry [transition_workflow] raises [WorkflowError]
    exactly when the target is not in the row of the current state; the
    message names the current state, the target and the allowed states, and
    the session is left as it was.  Otherwise the entry is written with
    [workflow_state] equal to the target. *)
Theorem transition_workflow_outcome now db entry_id entry new_state
    approved_by :
  entries db !! entry_id = Some entry →
  let current_state := Entry.workflow_state entry in
  let result := EntryService.transition_workflow now entry_id new_state
                  approved_by db in
  ((∃ msg, result.1 = Raised (WorkflowError msg))
   ↔ new_state ∉ EntryService.valid_transitions current_state)
  ∧ (new_state ∉ EntryService.valid_transitions current_state →
     result =
       (Raised (WorkflowError
                  ("Invalid transition from " +:+ current_state +:+ " to "
                   +:+ new_state +:+ ". Valid transitions: "
                   +:+ String.concat ", "
                         (EntryService.valid_transitions current_state))),
        db))
  ∧ (new_state ∈ EntryService.valid_transitions current_state →
     ∃ entry',
       result = (Returned (Some entry'),
                 set_entries (insert entry_id entry') db)
       ∧ Entry.workflow_state entry' = new_state).
Proof.
  intros Hget current_state result.
  assert (Hbad : new_state ∉ EntryService.valid_transitions current_state →
            result =
              (Raised (WorkflowError
                 (EntryService.invalid_transition current_state new_state)),
               db)).
  { intros Hnot. subst result. unfold EntryService.transition_workflow.
    rewrite (bind_returned _ _ _ _ _ (entry_get_eq entry_id db)), Hget.
    fold current_state. by rewrite bool_decide_eq_true_2. }
  assert (Hgood : new_state ∈ EntryService.valid_transitions current_state →
            result =
              (Returned (Some (stamped now new_state approved_by entry)),
               set_entries
                 (insert entry_id (stamped now new_state approved_by entry))
                 db)).
  { intros Hin. subst result. unfold EntryService.transition_workflow.
    rewrite (bind_returned _ _ _ _ _ (entry_get_eq entry_id db)), Hget.
    fold current_state. rewrite bool_decide_eq_false_2 by tauto.
    by apply update_workflow_state_some. }
  split; [split|split].
  - intros [msg Hmsg] Hin. rewrite (Hgood Hin) in Hmsg. discriminate.
  - intros Hnot. rewrite (Hbad Hnot). by eexists.
  - intros Hnot. rewrite (Hbad Hnot). reflexivity.
  - intros Hin. eexists. split; [by apply Hgood|].
    apply stamped_workflow_state.
Qed.

(** C6. On an entry that is not in "draft" [create_review] raises
    [WorkflowError] before anything is written: the session, and with it
    the entry and the reviews, is the one of before the call. *)
Theorem create_review_requires_draft now db new_id entry_id entry review_data
    created_by :
  entries db !! entry_id = Some entry →
  Entry.workflow_state entry ≠ "draft" →
  ReviewService.create_review now new_id entry_id review_data created_by db =
    (Raised (WorkflowError
               ("Entry must be in draft state to create review. "
                +:+ "Current state: " +:+ Entry.workflow_state entry)),
     db).
Proof.
  intros Hget Hstate. unfold ReviewService.create_review.
  rewrite (bind_returned _ _ _ _ _ (entry_get_eq entry_id db)), Hget.
  by rewrite bool_decide_eq_true_2.
Qed.

(** C7. On a review that is no longer "pending" [submit_decision] raises
    [ValidationError] before anything is written: the review, its
    participants and the entries are the ones of before the call. *)
Theorem submit_decision_once now later db review_id review decision user_id :
  reviews db !! review_id = Some review →
  Review.status review ≠ "pending" →
  ReviewService.submit_decision now later review_id decision user_id db =
    (Raised (ValidationError ("Review is already " +:+ Review.status review)),
     db).
Proof.
  intros Hget Hstatus. unfold ReviewService.submit_decision.
  rewrite (bind_returned _ _ _ _ _ (get_with_participants_some _ _ _ Hget)).
  cbn [loaded_row]. by rewrite bool_decide_eq_true_2.
Qed.

(** C8. On a pending review [submit_decision] of a user who is not among
    the participants raises [ValidationError] before anything is written,
    whatever the decision and whatever the roles of the participants: the
    review stays "pending" and the entries are untouched. *)
Theorem submit_decision_participants_only now later db review_id review decision
    user_id :
  reviews db !! review_id = Some review →
  Review.status review = "pending" →
  user_id ∉ map ReviewParticipant.user_id
              (ReviewRepository.participants_of review_id db) →
  let result := ReviewService.submit_decision now later review_id decision
                  user_id db in
  result = (Raised (ValidationError
                      ("User " +:+ user_id
                       +:+ " is not a participant in this review")),
            db)
  ∧ Review.status <$> reviews result.2 !! review_id = Some "pending"
  ∧ entries result.2 = entries db.
Proof.
  intros Hget Hstatus Hnot result.
  assert (Hrun : result =
            (Raised (ValidationError
                       ("User " +:+ user_id
                        +:+ " is not a participant in this review")), db)).
  { subst result. unfold ReviewService.submit_decision.
    rewrite (bind_returned _ _ _ _ _ (get_with_participants_some _ _ _ Hget)).
    cbn [loaded_row loaded_participants].
    rewrite bool_decide_eq_false_2 by tauto.
    by rewrite find_participant_none. }
  rewrite Hrun. cbn [snd]. split; [done|]. split; [|done].
  by rewrite Hget; cbn; rewrite Hstatus.
Qed.

(** *** Accepted decisions *)

Lemma filter_absent {A} (f : A → string) (u : string) (l : list A) :
  u ∉ map f l → filter (λ y, f y = u) l = [].
Proof.
  induction l as [|a l IH]; cbn [map]; intros Hnot; [done|].
  apply not_elem_of_cons in Hnot as [Hne Hnot].
  rewrite filter_cons_False by congruence. by apply IH.
Qed.

Lemma filter_unique {A} (f : A → string) (u : string) (l : list A) :
  NoDup (map f l) → u ∈ map f l → ∃ x, filter (λ y, f y = u) l = [x].
Proof.
  induction l as [|a l IH]; cbn [map]; intros Hnd Hin.
  - by apply elem_of_nil in Hin.
  - apply NoDup_cons in Hnd as [Hnotin Hnd].
    destruct (decide (f a = u)) as [Heq|Hne].
    + exists a. rewrite filter_cons_True by done. f_equal.
      apply filter_absent. by rewrite <- Heq.
    + rewrite filter_cons_False by done. apply IH; [done|].
      apply elem_of_cons in Hin as [Heq|Hin]; [congruence | done].
Qed.

Lemma participant_row_unique review_id user_id db :
  NoDup (map ReviewParticipant.user_id
           (ReviewRepository.participants_of review_id db)) →
  user_id ∈ map ReviewParticipant.user_id
              (ReviewRepository.participants_of review_id db) →
  ∃ p, filter (ReviewRepository.is_participant review_id user_id)
         (review_participants db) = [p].
Proof.
  intros Hnd Hin.
  destruct (filter_unique _ _ _ Hnd Hin) as [p Hp]. exists p.
  unfold ReviewRepository.participants_of in Hp.
  rewrite list_filter_filter in Hp. rewrite <- Hp.
  apply list_filter_iff. intros x. unfold ReviewRepository.is_participant.
  tauto.
Qed.

Lemma approve_by_participant_one now review_id user_id db p :
  filter (ReviewRepository.is_participant review_id user_id)
    (review_participants db) = [p] →
  ReviewRepository.approve_by_participant now review_id user_id db =
    (Returned (Some (ReviewParticipant.set_approved_at (Some now) p)),
     set_review_participants (mark_approved now review_id user_id) db).
Proof.
  intros Hone. unfold ReviewRepository.approve_by_participant.
  coro_unfold. by rewrite Hone.
Qed.

(** The write of the entry, then the last read of the review. *)
Ltac entry_written Hentry Hrow :=
  match goal with
  | |- bind (EntryRepository.update_workflow_state _ _ ?new_state ?by_user) _
         ?db2 = _ =>
      let written := fresh "written" in
      let Hwrite := fresh "Hwrite" in
      destruct (Hentry db2 new_state by_user eq_refl) as [written Hwrite];
      rewrite (bind_returned _ _ _ _ _ Hwrite);
      rewrite Hrow by (by destruct (entries _ !! _));
      by destruct (entries _ !! _)
  end.

(** A decision is accepted when the review is pending, the user is among
    its participants and, for an approval, exactly one participant row is
    the user's. *)
Lemma submit_decision_one_row now later db review_id review decision user_id :
  reviews db !! review_id = Some review →
  Review.status review = "pending" →
  user_id ∈ map ReviewParticipant.user_id
              (ReviewRepository.participants_of review_id db) →
  (ReviewDecision.status decision = "approved" →
   ∃ p, filter (ReviewRepository.is_participant review_id user_id)
          (review_participants db) = [p]) →
  let status := ReviewDecision.status decision in
  let db' := decided now later review_id status user_id review db in
  ReviewService.submit_decision now later review_id decision user_id db =
    (Returned (Some (mkLoaded review_id (Review.set_status status review)
                       (ReviewRepository.participants_of review_id db'))),
     db').
Proof.
  intros Hget Hstatus Hin Hone status db'.
  unfold ReviewService.submit_decision.
  rewrite (bind_returned _ _ _ _ _ (get_with_participants_some _ _ _ Hget)).
  cbn [loaded_row loaded_participants].
  rewrite bool_decide_eq_false_2 by tauto.
  destruct (find_participant_some _ _ Hin) as [found ->].
  rewrite (bind_returned _ _ _ _ _ (update_status_some _ _ _ _ Hget)).
  fold status.
  set (db1 := set_reviews _ db).
  assert (Hrow : ∀ db2, reviews db2 = reviews db1 →
            ReviewRepository.get_with_participants review_id db2 =
              (Returned (Some (mkLoaded review_id
                                 (Review.set_status status review)
                                 (ReviewRepository.participants_of review_id
                                    db2))), db2)).
  { intros db2 Hsame. apply get_with_participants_some.
    rewrite Hsame. apply lookup_insert_eq. }
  assert (Hentry : ∀ db2 new_state approved_by,
            entries db2 = entries db →
            ∃ written,
              EntryRepository.update_workflow_state later
                (Review.entry_id review) new_state approved_by db2
              = (Returned written,
                 match entries db !! Review.entry_id review with
                 | Some entry =>
                     set_entries
                       (insert (Review.entry_id review)
                          (stamped later new_state approved_by entry)) db2
                 | None => db2
                 end)).
  { intros db2 new_state approved_by Hsame.
    destruct (entries db !! Review.entry_id review) as [entry|] eqn:He;
      eexists.
    - apply update_workflow_state_some. by rewrite Hsame.
    - apply update_workflow_state_none. by rewrite Hsame. }
  subst db'. unfold decided, decided_entries. fold status.
  destruct (bool_decide (status = "approved")) eqn:Happroved.
  - apply bool_decide_eq_true_1 in Happroved.
    destruct (Hone Happroved) as [p Hp].
    rewrite (bind_returned _ _ _ _ _
               (approve_by_participant_one now review_id user_id db1 p Hp)).
    rewrite (bind_returned _ _ _ _ _ (entry_get_eq _ _)).
    entry_written Hentry Hrow.
  - rewrite (bind_returned _ _ db1 None db1) by reflexivity.
    rewrite (bind_returned _ _ _ _ _ (entry_get_eq _ _)).
    destruct (bool_decide (status = "rejected"));
      [| destruct (bool_decide (status = "changes_requested"))].
    + entry_written Hentry Hrow.
    + entry_written Hentry Hrow.
    + rewrite (bind_returned _ _ db1 None db1) by reflexivity.
      rewrite Hrow by done. by destruct (entries db !! Review.entry_id review).
Qed.

Lemma submit_decision_accepted now later db review_id review decision user_id :
  reviews db !! review_id = Some review →
  Review.status review = "pending" →
  user_id ∈ map ReviewParticipant.user_id
              (ReviewRepository.participants_of review_id db) →
  (ReviewDecision.status decision = "approved" →
   NoDup (map ReviewParticipant.user_id
            (ReviewRepository.participants_of review_id db))) →
  let status := ReviewDecision.status decision in
  let db' := decided now later review_id status user_id review db in
  ReviewService.submit_decision now later review_id decision user_id db =
    (Returned (Some (mkLoaded review_id (Review.set_status status review)
                       (ReviewRepository.participants_of review_id db'))),
     db').
Proof.
  intros Hget Hstatus Hin Hset.
  apply submit_decision_one_row; try done.
  intros Happroved. apply participant_row_unique; [by apply Hset | done].
Qed.

Lemma mark_approved_participant now review_id user_id db p :
  p ∈ filter (λ p, ReviewParticipant.review_id p = review_id)
        (mark_approved now review_id user_id (review_participants db)) →
  ReviewParticipant.user_id p = user_id →
  ReviewParticipant.approved_at p = Some now.
Proof.
  intros Hp Huser. apply list_elem_of_filter in Hp as [Hrid Hp].
  unfold mark_approved in Hp. apply list_elem_of_fmap in Hp as (q & -> & _).
  destruct (decide (ReviewRepository.is_participant review_id user_id q))
    as [_|Hno]; [done|].
  destruct Hno. by split.
Qed.

Lemma mark_approved_exists now review_id user_id db :
  user_id ∈ map ReviewParticipant.user_id
              (ReviewRepository.participants_of review_id db) →
  ∃ p, p ∈ filter (λ p, ReviewParticipant.review_id p = review_id)
             (mark_approved now review_id user_id (review_participants db))
       ∧ ReviewParticipant.user_id p = user_id
       ∧ ReviewParticipant.approved_at p = Some now.
Proof.
  intros Hin. apply list_elem_of_fmap in Hin as (q & Huser & Hq).
  apply list_elem_of_filter in Hq as [Hrid Hq].
  exists (ReviewParticipant.set_approved_at (Some now) q).
  split; [| by split]. apply list_elem_of_filter. split; [done|].
  unfold mark_approved. apply list_elem_of_fmap. exists q. split; [| done].
  rewrite decide_True; [done | by split].
Qed.

Lemma one_row_is_participant review_id user_id db row :
  filter (ReviewRepository.is_participant review_id user_id)
    (review_participants db) = [row] →
  user_id ∈ map ReviewParticipant.user_id
              (ReviewRepository.participants_of review_id db).
Proof.
  intros Hone.
  assert (Hrow : row ∈ filter
                   (ReviewRepository.is_participant review_id user_id)
                   (review_participants db))
    by (rewrite Hone; by left).
  apply list_elem_of_filter in Hrow as [[Hrid Huser] Hrow].
  rewrite <- Huser. apply list_elem_of_fmap_2.
  by apply list_elem_of_filter.
Qed.

(** X18. An "approved" decision of a user who has exactly one row among
    the participants of a pending review, whatever the other rows are,
    returns the review with status "approved" and leaves the entry
    "published", with [approved_by] the deciding user and [approved_at] the
    clock that [update_workflow_state] reads, and the row of the user with
    [approved_at] the clock that [approve_by_participant] reads.  The user
    id is not empty and the entry of the review exists. *)
Theorem submit_decision_approved now later db review_id review comment
    user_id entry row :
  reviews db !! review_id = Some review →
  Review.status review = "pending" →
  filter (ReviewRepository.is_participant review_id user_id)
    (review_participants db) = [row] →
  user_id ≠ "" →
  entries db !! Review.entry_id review = Some entry →
  ∃ loaded db',
    ReviewService.submit_decision now later review_id
      (ReviewDecision.mk "approved" comment) user_id db
    = (Returned (Some loaded), db')
    ∧ loaded_id loaded = review_id
    ∧ Review.status (loaded_row loaded) = "approved"
    ∧ reviews db' !! review_id = Some (loaded_row loaded)
    ∧ (∃ entry',
         entries db' !! Review.entry_id review = Some entry'
         ∧ Entry.workflow_state entry' = "published"
         ∧ Entry.approved_by entry' = Some user_id
         ∧ Entry.approved_at entry' = Some later)
    ∧ (∃ p, p ∈ ReviewRepository.participants_of review_id db'
            ∧ ReviewParticipant.user_id p = user_id)
    ∧ (∀ p, p ∈ ReviewRepository.participants_of review_id db' →
            ReviewParticipant.user_id p = user_id →
            ReviewParticipant.approved_at p = Some now).
Proof.
  intros Hget Hstatus Hone Huser Hentry.
  assert (Hin := one_row_is_participant _ _ _ _ Hone).
  eexists _, _. split.
  { apply (submit_decision_one_row now later db review_id review
             (ReviewDecision.mk "approved" comment) user_id); eauto. }
  cbn [ReviewDecision.status decided loaded_id loaded_row reviews entries].
  unfold decided_entries, ReviewRepository.participants_of.
  rewrite Hentry. cbn [bool_decide decide_rel review_participants].
  rewrite !bool_decide_eq_true_2 by done.
  split; [done|]. split; [done|]. split; [apply lookup_insert_eq|].
  split; [| split].
  - eexists. split; [apply lookup_insert_eq|].
    unfold stamped, truthy_str. rewrite bool_decide_eq_false_2 by done.
    by cbn.
  - destruct (mark_approved_exists now review_id user_id db Hin)
      as (p & Hp & Hu & _). by exists p.
  - intros p. apply mark_approved_participant.
Qed.

(** C5. A "rejected" or a "changes_requested" decision of a participant
    of a pending review leaves the entry "draft" and every other column of
    it, [approved_by] and [approved_at] among them, as it was; the entries
    that the two decisions leave are the same. *)
Theorem submit_decision_back_to_draft now later db review_id review status
    comment user_id entry :
  reviews db !! review_id = Some review →
  Review.status review = "pending" →
  user_id ∈ map ReviewParticipant.user_id
              (ReviewRepository.participants_of review_id db) →
  entries db !! Review.entry_id review = Some entry →
  status = "rejected" ∨ status = "changes_requested" →
  ∃ loaded db',
    ReviewService.submit_decision now later review_id
      (ReviewDecision.mk status comment) user_id db
    = (Returned (Some loaded), db')
    ∧ Review.status (loaded_row loaded) = status
    ∧ entries db' = <[Review.entry_id review :=
                        Entry.set_workflow_state "draft" entry]> (entries db)
    ∧ Entry.workflow_state (Entry.set_workflow_state "draft" entry) = "draft"
    ∧ Entry.approved_by (Entry.set_workflow_state "draft" entry)
      = Entry.approved_by entry
    ∧ Entry.approved_at (Entry.set_workflow_state "draft" entry)
      = Entry.approved_at entry
    ∧ (∀ status' comment',
         status' = "rejected" ∨ status' = "changes_requested" →
         entries (ReviewService.submit_decision now later review_id
                    (ReviewDecision.mk status' comment') user_id db).2
         = entries db').
Proof.
  intros Hget Hstatus Hin Hentry Hdecision.
  assert (Hdraft : ∀ status' comment',
            status' = "rejected" ∨ status' = "changes_requested" →
            ReviewService.submit_decision now later review_id
              (ReviewDecision.mk status' comment') user_id db
            = (Returned
                 (Some (mkLoaded review_id (Review.set_status status' review)
                          (ReviewRepository.participants_of review_id
                             (decided now later review_id status' user_id review
                                db)))),
               decided now later review_id status' user_id review db)
            ∧ entries (decided now later review_id status' user_id review db)
              = <[Review.entry_id review :=
                    Entry.set_workflow_state "draft" entry]> (entries db)).
  { intros status' comment' Hd. split.
    - apply (submit_decision_accepted now later db review_id review
               (ReviewDecision.mk status' comment') user_id); auto.
      cbn. by destruct Hd as [-> | ->].
    - cbn [decided entries]. unfold decided_entries. rewrite Hentry.
      by destruct Hd as [-> | ->]. }
  destruct (Hdraft status comment Hdecision) as [Hrun Hentries].
  eexists _, _. split; [exact Hrun|].
  split; [done|]. split; [exact Hentries|]. do 3 (split; [done|]).
  intros status' comment' Hd.
  destruct (Hdraft status' comment' Hd) as [Hrun' Hentries'].
  rewrite Hrun'. cbn [snd]. by rewrite Hentries', Hentries.
Qed.

(** An approval of a user with more than one participant row stops in
    [approve_by_participant], after the status of the review is written. *)
Lemma submit_decision_two_rows now later review_id review comment user_id db
    first second others :
  reviews db !! review_id = Some review →
  Review.status review = "pending" →
  filter (ReviewRepository.is_participant review_id user_id)
    (review_participants db) = first :: second :: others →
  ReviewService.submit_decision now later review_id
    (ReviewDecision.mk "approved" comment) user_id db
  = (Raised MultipleResultsFound,
     set_reviews (insert review_id (Review.set_status "approved" review)) db).
Proof.
  intros Hget Hstatus Hrows.
  assert (Hin : user_id ∈ map ReviewParticipant.user_id
                  (ReviewRepository.participants_of review_id db)).
  { assert (Hfirst : first ∈ filter
                       (ReviewRepository.is_participant review_id user_id)
                       (review_participants db))
      by (rewrite Hrows; by left).
    apply list_elem_of_filter in Hfirst as [[Hrid Huser] Hfirst].
    rewrite <- Huser. apply list_elem_of_fmap_2.
    by apply list_elem_of_filter. }
  destruct (find_participant_some _ _ Hin) as [found Hfound].
  unfold ReviewService.submit_decision.
  rewrite (bind_returned _ _ _ _ _ (get_with_participants_some _ _ _ Hget)).
  cbn [loaded_row loaded_participants].
  rewrite bool_decide_eq_false_2 by tauto. rewrite Hfound.
  rewrite (bind_returned _ _ _ _ _ (update_status_some _ _ _ _ Hget)).
  cbn [ReviewDecision.status]. rewrite bool_decide_eq_true_2 by done.
  apply bind_raised. unfold ReviewRepository.approve_by_participant.
  coro_unfold. cbn [review_participants set_reviews]. by rewrite Hrows.
Qed.



(** *** Opening a review *)

Lemma create_with_participants_fresh new_id review_data participants db :
  reviews db !! new_id = None →
  ReviewRepository.create_with_participants new_id review_data participants db
  = (Returned new_id,
     mkSession (entries db) (<[new_id := review_data]> (reviews db))
       (if truthy_list participants
        then review_participants db
             ++ map (ReviewRepository.new_participant new_id)
                  (default [] participants)
        else review_participants db)%list).
Proof.
  intros Hfresh. unfold ReviewRepository.create_with_participants,
    ReviewRepository.get. coro_unfold. rewrite Hfresh.
  by destruct (truthy_list participants).
Qed.

Lemma create_with_participants_taken new_id review_data participants db :
  is_Some (reviews db !! new_id) →
  ReviewRepository.create_with_participants new_id review_data participants db
  = (Raised IntegrityError, db).
Proof.
  intros [taken Htaken]. unfold ReviewRepository.create_with_participants,
    ReviewRepository.get. coro_unfold. by rewrite Htaken.
Qed.

(** C4. On an entry in "draft" [create_review] with a key that no review
    has yet returns the new review, "pending" and attached to the entry,
    and the session it leaves holds both the review and the entry in
    "in_review", every other review and entry being as before.  When the
    key is taken the call raises and the session is the one of before the
    call: in no outcome does the review exist while the entry is still
    "draft", nor the entry move while the review is missing. *)
Theorem create_review_on_draft now db new_id entry_id entry review_data
    created_by :
  entries db !! entry_id = Some entry →
  Entry.workflow_state entry = "draft" →
  let result := ReviewService.create_review now new_id entry_id review_data
                  created_by db in
  (reviews db !! new_id = None →
   ∃ loaded db',
     result = (Returned (Some loaded), db')
     ∧ loaded_id loaded = new_id
     ∧ Review.status (loaded_row loaded) = "pending"
     ∧ Review.entry_id (loaded_row loaded) = entry_id
     ∧ reviews db' = <[new_id := loaded_row loaded]> (reviews db)
     ∧ entries db'
       = <[entry_id := Entry.set_workflow_state "in_review" entry]>
           (entries db)
     ∧ reviews db' !! new_id = Some (loaded_row loaded)
     ∧ Entry.workflow_state <$> entries db' !! entry_id = Some "in_review")
  ∧ (is_Some (reviews db !! new_id) →
     result = (Raised IntegrityError, db)).
Proof.
  intros Hget Hdraft result. subst result.
  unfold ReviewService.create_review.
  rewrite (bind_returned _ _ _ _ _ (entry_get_eq entry_id db)), Hget.
  rewrite bool_decide_eq_false_2 by tauto.
  split.
  - intros Hfresh.
    rewrite (bind_returned _ _ _ _ _
               (create_with_participants_fresh _ _ _ _ Hfresh)).
    erewrite bind_returned;
      [| by apply update_workflow_state_some with (entry := entry)].
    erewrite get_with_participants_some; [| apply lookup_insert_eq].
    eexists _, _. split; [reflexivity|].
    cbn [loaded_id loaded_row Review.status Review.entry_id reviews entries
         set_entries].
    do 5 (split; [done|]). split; [apply lookup_insert_eq|].
    by rewrite lookup_insert_eq.
  - intros Htaken.
    by rewrite (bind_raised _ _ _ _ _
                  (create_with_participants_taken _ _ _ _ Htaken)).
Qed.

(** *** Terminal states *)

Lemma transition_workflow_keeps_terminal now db entry_id entry new_state
    approved_by :
  entries db !! entry_id = Some entry →
  Entry.workflow_state entry = "retired"
  ∨ Entry.workflow_state entry = "merged" →
  (EntryService.transition_workflow now entry_id new_state approved_by db).2
  = db.
Proof.
  intros Hget Hterminal. unfold EntryService.transition_workflow.
  rewrite (bind_returned _ _ _ _ _ (entry_get_eq entry_id db)), Hget.
  rewrite bool_decide_eq_true_2; [done|].
  rewrite valid_transitions_row.
  destruct Hterminal as [-> | ->]; apply not_elem_of_nil.
Qed.

Lemma create_review_keeps_terminal now db new_id entry_id entry review_data
    created_by :
  entries db !! entry_id = Some entry →
  Entry.workflow_state entry = "retired"
  ∨ Entry.workflow_state entry = "merged" →
  (ReviewService.create_review now new_id entry_id review_data created_by
     db).2 = db.
Proof.
  intros Hget Hterminal. unfold ReviewService.create_review.
  rewrite (bind_returned _ _ _ _ _ (entry_get_eq entry_id db)), Hget.
  rewrite bool_decide_eq_true_2; [done|].
  by destruct Hterminal as [-> | ->].
Qed.

(** C2. A terminal state is not kept by every operation.  A draft entry
    gets a review, is deleted ("retired") while the review is pending, and
    the approval of the review then publishes it; a rejection would send it
    back to "draft"; [delete_entry] moves a "merged" entry to "retired". *)
Theorem terminal_state_left :
  Entry.workflow_state <$> entries db_retired !! "e1" = Some "retired"
  ∧ Entry.workflow_state
      <$> entries (ReviewService.submit_decision 3 4 "r1" approve "alice"
                     db_retired).2 !! "e1"
    = Some "published"
  ∧ Entry.workflow_state
      <$> entries (ReviewService.submit_decision 3 4 "r1"
                     (ReviewDecision.mk "rejected" None) "bob"
                     db_retired).2 !! "e1"
    = Some "draft"
  ∧ Entry.workflow_state <$> entries db_merged !! "e1" = Some "merged"
  ∧ Entry.workflow_state
      <$> entries (EntryService.delete_entry 4 "e1" db_merged).2 !! "e1"
    = Some "retired".
Proof. vm_compute. repeat split. Qed.

(** The scenario of the specification: a review with alice and bob, bob
    asks for changes, a second review, alice approves. *)
Example two_review_rounds :
  let db1 := db_in_review in
  let db2 := (ReviewService.submit_decision 2 3 "r1" changes_requested "bob"
                db1).2 in
  let db3 := (ReviewService.create_review 3 "r2" "e1" sample_review "carol"
                db2).2 in
  let db4 := (ReviewService.submit_decision 4 5 "r2" approve "alice" db3).2 in
  Entry.workflow_state <$> entries db1 !! "e1" = Some "in_review"
  ∧ Review.status <$> reviews db2 !! "r1" = Some "changes_requested"
  ∧ Entry.workflow_state <$> entries db2 !! "e1" = Some "draft"
  ∧ Review.status <$> reviews db4 !! "r2" = Some "approved"
  ∧ Entry.workflow_state <$> entries db4 !! "e1" = Some "published"
  ∧ Entry.approved_by <$> entries db4 !! "e1" = Some (Some "alice")
  ∧ Entry.approved_at <$> entries db4 !! "e1" = Some (Some 5%Z).
Proof. vm_compute. repeat split. Qed.

(** *** Participants keep a name *)

Lemma valid_participant_named (p : ReviewParticipantCreate.t) :
  ReviewParticipantCreate.valid p = true →
  ReviewParticipantCreate.user_id p ≠ "".
Proof.
  unfold ReviewParticipantCreate.valid. intros Hvalid Hempty.
  rewrite Hempty in Hvalid. discriminate.
Qed.

Lemma participant_named review_id user_id db :
  participants_named db →
  user_id ∈ map ReviewParticipant.user_id
              (ReviewRepository.participants_of review_id db) →
  user_id ≠ "".
Proof.
  unfold participants_named. rewrite Forall_forall. intros Hnamed Hin.
  apply list_elem_of_fmap in Hin as (p & -> & Hp).
  apply list_elem_of_filter in Hp as [_ Hp]. by apply Hnamed.
Qed.

Lemma mark_approved_named now review_id user_id rows :
  Forall (λ p, ReviewParticipant.user_id p ≠ "") rows →
  Forall (λ p, ReviewParticipant.user_id p ≠ "")
    (mark_approved now review_id user_id rows).
Proof.
  unfold mark_approved. intros Hnamed. apply Forall_fmap.
  eapply Forall_impl; [exact Hnamed|]. intros p Hp. cbn.
  by destruct (decide (ReviewRepository.is_participant review_id user_id p)).
Qed.

Lemma create_review_named now new_id entry_id review_data created_by db :
  Forall (λ p, ReviewParticipantCreate.user_id p ≠ "")
    (default [] (ReviewCreate.participants review_data)) →
  participants_named db →
  participants_named
    (ReviewService.create_review now new_id entry_id review_data created_by
       db).2.
Proof.
  intros Hvalid Hnamed.
  assert (Hnew : Forall (λ p, ReviewParticipant.user_id p ≠ "")
                   (map (ReviewRepository.new_participant new_id)
                      (default [] (ReviewCreate.participants review_data)))).
  { apply Forall_fmap. eapply Forall_impl; [exact Hvalid|]. by intros p Hp. }
  unfold participants_named in *.
  unfold ReviewService.create_review,
    ReviewRepository.create_with_participants,
    ReviewRepository.get_with_participants,
    EntryRepository.update_workflow_state, EntryRepository.get,
    ReviewRepository.get.
  coro_unfold.
  repeat (case_match; simplify_eq/=); try done.
  by apply Forall_app.
Qed.

Lemma add_participant_named review_id participant_data db :
  ReviewParticipantCreate.user_id participant_data ≠ "" →
  participants_named db →
  participants_named
    (ReviewService.add_participant review_id participant_data db).2.
Proof.
  intros Hvalid Hnamed. unfold participants_named in *.
  unfold ReviewService.add_participant, ReviewRepository.get. coro_unfold.
  repeat (case_match; simplify_eq/=); try done.
  apply Forall_app. split; [done|]. by apply Forall_singleton.
Qed.

Lemma submit_decision_named now later review_id decision user_id db :
  participants_named db →
  participants_named
    (ReviewService.submit_decision now later review_id decision user_id db).2.
Proof.
  intros Hnamed.
  pose proof (mark_approved_named now review_id user_id _ Hnamed) as Hmarked.
  unfold participants_named, mark_approved in *.
  unfold ReviewService.submit_decision,
    ReviewRepository.approve_by_participant, ReviewRepository.update_status,
    ReviewRepository.get_with_participants,
    EntryRepository.update_workflow_state, EntryRepository.get,
    ReviewRepository.get.
  coro_unfold.
  repeat (case_match; simplify_eq/=); done.
Qed.

Lemma delete_entry_named now entry_id db :
  participants_named db →
  participants_named (EntryService.delete_entry now entry_id db).2.
Proof.
  intros Hnamed. unfold participants_named in *.
  unfold EntryService.delete_entry, EntryRepository.update_workflow_state,
    EntryRepository.get.
  coro_unfold.
  repeat (case_match; simplify_eq/=); done.
Qed.

Lemma transition_workflow_named now entry_id new_state approved_by db :
  participants_named db →
  participants_named
    (EntryService.transition_workflow now entry_id new_state approved_by db).2.
Proof.
  intros Hnamed. unfold participants_named in *.
  unfold EntryService.transition_workflow,
    EntryRepository.update_workflow_state, EntryRepository.get.
  coro_unfold.
  repeat (case_match; simplify_eq/=); done.
Qed.

(** *** The theorems at the sample sessions *)

Ltac evaluated := vm_compute; first [reflexivity | exact I | discriminate].

Ltac decided_by_evaluation :=
  match goal with
  | |- ?P => apply (@bool_decide_unpack P _); evaluated
  end.

Lemma transition_workflow_outcome_witness :
  EntryService.transition_workflow 5 "e1" "published" None db_draft
  = (Raised (WorkflowError
               ("Invalid transition from draft to published. "
                +:+ "Valid transitions: in_review, retired")),
     db_draft)
  ∧ ∃ entry',
      EntryService.transition_workflow 5 "e1" "in_review" None db_draft
      = (Returned (Some entry'), set_entries (insert "e1" entry') db_draft)
      ∧ Entry.workflow_state entry' = "in_review".
Proof.
  split.
  - refine (proj1 (proj2 (transition_workflow_outcome 5 db_draft "e1"
                            sample_entry "published" None _)) _);
      [evaluated | decided_by_evaluation].
  - refine (proj2 (proj2 (transition_workflow_outcome 5 db_draft "e1"
                            sample_entry "in_review" None _)) _);
      [evaluated | decided_by_evaluation].
Defined.

Lemma create_review_requires_draft_witness :
  ReviewService.create_review 5 "r2" "e1" sample_review "carol" db_in_review =
    (Raised (WorkflowError
               ("Entry must be in draft state to create review. "
                +:+ "Current state: "
                +:+ Entry.workflow_state
                      (Entry.set_workflow_state "in_review" sample_entry))),
     db_in_review).
Proof.
  apply (create_review_requires_draft 5 db_in_review "r2" "e1"
           (Entry.set_workflow_state "in_review" sample_entry) sample_review
           "carol"); evaluated.
Defined.

Lemma submit_decision_once_witness :
  ReviewService.submit_decision 5 6 "r1" changes_requested "bob" db_published =
    (Raised (ValidationError
               ("Review is already "
                +:+ Review.status (Review.mk "e1" "approved" None))),
     db_published).
Proof.
  apply (submit_decision_once 5 6 db_published "r1"
           (Review.mk "e1" "approved" None) changes_requested "bob");
    evaluated.
Defined.

Lemma submit_decision_participants_only_witness :
  let result := ReviewService.submit_decision 5 6 "r1" approve "carol"
                  db_in_review in
  result = (Raised (ValidationError
                      ("User " +:+ "carol"
                       +:+ " is not a participant in this review")),
            db_in_review)
  ∧ Review.status <$> reviews result.2 !! "r1" = Some "pending"
  ∧ entries result.2 = entries db_in_review.
Proof.
  apply (submit_decision_participants_only 5 6 db_in_review "r1"
           (Review.mk "e1" "pending" None) approve "carol");
    [evaluated | evaluated | decided_by_evaluation].
Defined.

Lemma submit_decision_approved_witness :
  ∃ loaded db',
    ReviewService.submit_decision 3 4 "r1"
      (ReviewDecision.mk "approved" None) "alice" db_in_review
    = (Returned (Some loaded), db')
    ∧ loaded_id loaded = "r1"
    ∧ Review.status (loaded_row loaded) = "approved"
    ∧ reviews db' !! "r1" = Some (loaded_row loaded)
    ∧ (∃ entry',
         entries db' !! Review.entry_id (Review.mk "e1" "pending" None)
         = Some entry'
         ∧ Entry.workflow_state entry' = "published"
         ∧ Entry.approved_by entry' = Some "alice"
         ∧ Entry.approved_at entry' = Some 4%Z)
    ∧ (∃ p, p ∈ ReviewRepository.participants_of "r1" db'
            ∧ ReviewParticipant.user_id p = "alice")
    ∧ (∀ p, p ∈ ReviewRepository.participants_of "r1" db' →
            ReviewParticipant.user_id p = "alice" →
            ReviewParticipant.approved_at p = Some 3%Z).
Proof.
  apply (submit_decision_approved 3 4 db_in_review "r1"
           (Review.mk "e1" "pending" None) None "alice"
           (Entry.set_workflow_state "in_review" sample_entry)
           (ReviewParticipant.mk "r1" "alice" "lead" None)); evaluated.
Defined.

Lemma create_review_on_draft_witness :
  (∃ loaded db',
     ReviewService.create_review 1 "r1" "e1" sample_review "carol" db_draft
     = (Returned (Some loaded), db')
     ∧ loaded_id loaded = "r1"
     ∧ Review.status (loaded_row loaded) = "pending"
     ∧ Review.entry_id (loaded_row loaded) = "e1"
     ∧ reviews db' = <["r1" := loaded_row loaded]> (reviews db_draft)
     ∧ entries db'
       = <["e1" := Entry.set_workflow_state "in_review" sample_entry]>
           (entries db_draft)
     ∧ reviews db' !! "r1" = Some (loaded_row loaded)
     ∧ Entry.workflow_state <$> entries db' !! "e1" = Some "in_review")
  ∧ ReviewService.create_review 3 "r1" "e1" sample_review "carol" db_changes
    = (Raised IntegrityError, db_changes).
Proof.
  split.
  - refine (proj1 (create_review_on_draft 1 db_draft "r1" "e1" sample_entry
                     sample_review "carol" _ _) _); evaluated.
  - refine (proj2 (create_review_on_draft 3 db_changes "r1" "e1"
                     (Entry.set_workflow_state "draft"
                        (Entry.set_workflow_state "in_review" sample_entry))
                     sample_review "carol" _ _) _);
      [evaluated | evaluated | decided_by_evaluation].
Defined.

Lemma submit_decision_back_to_draft_witness :
  ∃ loaded db',
    ReviewService.submit_decision 2 3 "r1"
      (ReviewDecision.mk "changes_requested" (Some "add the runbook")) "bob"
      db_in_review
    = (Returned (Some loaded), db')
    ∧ Review.status (loaded_row loaded) = "changes_requested"
    ∧ entries db'
      = <[Review.entry_id (Review.mk "e1" "pending" None) :=
            Entry.set_workflow_state "draft"
              (Entry.set_workflow_state "in_review" sample_entry)]>
          (entries db_in_review)
    ∧ Entry.workflow_state
        (Entry.set_workflow_state "draft"
           (Entry.set_workflow_state "in_review" sample_entry)) = "draft"
    ∧ Entry.approved_by
        (Entry.set_workflow_state "draft"
           (Entry.set_workflow_state "in_review" sample_entry))
      = Entry.approved_by (Entry.set_workflow_state "in_review" sample_entry)
    ∧ Entry.approved_at
        (Entry.set_workflow_state "draft"
           (Entry.set_workflow_state "in_review" sample_entry))
      = Entry.approved_at (Entry.set_workflow_state "in_review" sample_entry)
    ∧ (∀ status' comment',
         status' = "rejected" ∨ status' = "changes_requested" →
         entries (ReviewService.submit_decision 2 3 "r1"
                    (ReviewDecision.mk status' comment') "bob"
                    db_in_review).2
         = entries db').
Proof.
  apply (submit_decision_back_to_draft 2 3 db_in_review "r1"
           (Review.mk "e1" "pending" None) "changes_requested"
           (Some "add the runbook") "bob"
           (Entry.set_workflow_state "in_review" sample_entry));
    [evaluated | evaluated | decided_by_evaluation | evaluated
    | right; reflexivity].
Defined.


(** *** The sessions that the operations can leave *)

Ltac run_services :=
  unfold ReviewService.submit_decision, ReviewService.create_review,
    ReviewService.add_participant, ReviewService.get_review,
    EntryService.delete_entry, EntryService.transition_workflow,
    EntryService.update_entry, EntryService.get_entry,
    ReviewRepository.approve_by_participant, ReviewRepository.update_status,
    ReviewRepository.create_with_participants,
    ReviewRepository.get_with_participants, ReviewRepository.get,
    EntryRepository.update, EntryRepository.get_with_relations,
    EntryRepository.update_workflow_state, EntryRepository.get;
  coro_unfold.

(** The tests that a run has gone through, as propositions. *)
Ltac tests_passed :=
  repeat match goal with
         | H : bool_decide _ = true |- _ => apply bool_decide_eq_true_1 in H
         | H : bool_decide _ = false |- _ => apply bool_decide_eq_false_1 in H
         | H : negb _ = true |- _ => apply negb_true_iff in H
         | H : negb _ = false |- _ => apply negb_false_iff in H
         | H : ¬ (?x ≠ ?y) |- _ =>
             assert (x = y) by (by destruct (decide (x = y))); clear H
         end.

Lemma submit_decision_session now later review_id decision user_id db :
  let status := ReviewDecision.status decision in
  let db' := (ReviewService.submit_decision now later review_id decision user_id
                db).2 in
  db' = db
  ∨ ∃ review,
      reviews db !! review_id = Some review
      ∧ Review.status review = "pending"
      ∧ reviews db' = <[review_id := Review.set_status status review]>
                        (reviews db)
      ∧ (entries db' = entries db
         ∨ ∃ entry entry',
             entries db !! Review.entry_id review = Some entry
             ∧ entries db' = <[Review.entry_id review := entry']> (entries db)
             ∧ (Entry.workflow_state entry' = "published"
                ∧ status = "approved"
                ∨ Entry.workflow_state entry' = "draft"
                  ∧ (status = "rejected" ∨ status = "changes_requested"))).
Proof.
  intros status db'. subst status db'. run_services.
  repeat (case_match; simplify_eq/=); auto; tests_passed;
    right; eexists; (split; [done|]); (split; [done|]); (split; [done|]);
    first [by left | right; eexists _, _; split; [done|]; split; [done|]; auto].
Qed.

Lemma create_review_session now new_id entry_id review_data created_by db :
  let db' := (ReviewService.create_review now new_id entry_id review_data
                created_by db).2 in
  db' = db
  ∨ ∃ entry,
      entries db !! entry_id = Some entry
      ∧ Entry.workflow_state entry = "draft"
      ∧ reviews db !! new_id = None
      ∧ reviews db'
        = <[new_id := Review.mk entry_id "pending"
                        (ReviewCreate.rca_text review_data)]> (reviews db)
      ∧ entries db'
        = <[entry_id := Entry.set_workflow_state "in_review" entry]>
            (entries db).
Proof.
  intros db'. subst db'. run_services.
  repeat (case_match; simplify_eq/=); auto; tests_passed;
    right; eexists; by repeat split.
Qed.

Lemma delete_entry_session now entry_id db :
  let db' := (EntryService.delete_entry now entry_id db).2 in
  db' = db
  ∨ ∃ entry,
      entries db !! entry_id = Some entry
      ∧ db' = set_entries
                (insert entry_id (Entry.set_workflow_state "retired" entry))
                db.
Proof.
  intros db'. subst db'. run_services.
  repeat (case_match; simplify_eq/=); auto. right. by eexists.
Qed.

Lemma update_keeps_workflow obj_in entry :
  let entry' := updated obj_in entry in
  Entry.workflow_state entry' = Entry.workflow_state entry
  ∧ Entry.created_by entry' = Entry.created_by entry
  ∧ Entry.approved_by entry' = Entry.approved_by entry
  ∧ Entry.approved_at entry' = Entry.approved_at entry
  ∧ Entry.merged_into_id entry' = Entry.merged_into_id entry.
Proof.
  by destruct obj_in as [[?|] [?|] [?|] [?|]].
Qed.

Lemma update_entry_some entry_id entry entry_data db :
  entries db !! entry_id = Some entry →
  Entry.workflow_state entry ∈ ["draft"; "in_review"] →
  EntryService.update_entry entry_id entry_data db
  = (Returned (Some (updated entry_data entry)),
     set_entries (insert entry_id (updated entry_data entry)) db).
Proof.
  intros Hget Hstate. unfold EntryService.update_entry.
  rewrite (bind_returned _ _ _ _ _ (entry_get_eq entry_id db)), Hget.
  rewrite bool_decide_eq_false_2 by tauto.
  assert (Hupdate : EntryRepository.update entry_id entry_data db
                    = (Returned (Some (updated entry_data entry)),
                       set_entries
                         (insert entry_id (updated entry_data entry)) db)).
  { unfold EntryRepository.update.
    rewrite (bind_returned _ _ _ _ _ (entry_get_eq entry_id db)), Hget.
    reflexivity. }
  rewrite (bind_returned _ _ _ _ _ Hupdate).
  unfold EntryRepository.get_with_relations, query.
  cbn [entries set_entries]. by rewrite lookup_insert_eq.
Qed.

Lemma update_entry_session entry_id entry_data db :
  let db' := (EntryService.update_entry entry_id entry_data db).2 in
  db' = db
  ∨ ∃ entry entry',
      entries db !! entry_id = Some entry
      ∧ Entry.workflow_state entry' = Entry.workflow_state entry
      ∧ db' = set_entries (insert entry_id entry') db.
Proof.
  intros db'. subst db'. run_services.
  repeat (case_match; simplify_eq/=); auto.
  right. eexists _, _. split; [done|]. split; [| done].
  apply update_keeps_workflow.
Qed.

Lemma add_participant_session review_id participant_data db :
  let db' := (ReviewService.add_participant review_id participant_data db).2 in
  entries db' = entries db ∧ reviews db' = reviews db.
Proof.
  intros db'. subst db'. run_services.
  by repeat (case_match; simplify_eq/=).
Qed.

(** *** One pending review for an entry *)

Lemma one_pending_review_entry db db' entry_id entry entry' :
  entries db !! entry_id = Some entry →
  Entry.workflow_state entry' ≠ "draft"
  ∨ Entry.workflow_state entry' = Entry.workflow_state entry →
  reviews db' = reviews db →
  entries db' = <[entry_id := entry']> (entries db) →
  one_pending_review db → one_pending_review db'.
Proof.
  intros Hold Hstate Hreviews Hentries [Hone Hdraft].
  split; rewrite Hreviews; [exact Hone|].
  intros id review e Hid Hpending. rewrite Hentries.
  destruct (decide (entry_id = Review.entry_id review)) as [Heq|Hne].
  - rewrite Heq, lookup_insert_eq. intros [= <-].
    destruct Hstate as [Hnot | Hsame]; [done|].
    rewrite Hsame. apply (Hdraft id review); [done | done |].
    by rewrite <- Heq.
  - rewrite lookup_insert_ne by done. by apply (Hdraft id review).
Qed.

Lemma one_pending_review_same db db' :
  reviews db' = reviews db → entries db' = entries db →
  one_pending_review db → one_pending_review db'.
Proof.
  intros Hreviews Hentries Hkept. unfold one_pending_review.
  by rewrite Hreviews, Hentries.
Qed.

Lemma one_pending_review_created now new_id entry_id review_data created_by db :
  one_pending_review db →
  one_pending_review
    (ReviewService.create_review now new_id entry_id review_data created_by
       db).2.
Proof.
  intros [Hone Hdraft].
  destruct (create_review_session now new_id entry_id review_data created_by
              db) as [-> | (entry & Hentry & Hstate & Hfresh & Hrs & Hes)];
    [done|].
  unfold one_pending_review. rewrite Hrs, Hes. split.
  - intros id1 id2 review1 review2 H1 H2 Hp1 Hp2 Hsame.
    destruct (decide (new_id = id1)) as [<-|Hne1];
      destruct (decide (new_id = id2)) as [<-|Hne2]; [done | | |].
    + rewrite lookup_insert_eq in H1. rewrite lookup_insert_ne in H2 by done.
      injection H1 as <-. cbn in Hsame.
      destruct (Hdraft id2 review2 entry); [done | done | | done].
      by rewrite <- Hsame.
    + rewrite lookup_insert_eq in H2. rewrite lookup_insert_ne in H1 by done.
      injection H2 as <-. cbn in Hsame.
      destruct (Hdraft id1 review1 entry); [done | done | | done].
      by rewrite Hsame.
    + rewrite lookup_insert_ne in H1, H2 by done. by eapply Hone.
  - intros id review e Hid Hpending.
    destruct (decide (entry_id = Review.entry_id review)) as [Heq|Hne].
    + rewrite <- Heq, lookup_insert_eq. by intros [= <-].
    + rewrite lookup_insert_ne by done.
      destruct (decide (new_id = id)) as [<-|Hother].
      * rewrite lookup_insert_eq in Hid. injection Hid as <-. by destruct Hne.
      * rewrite lookup_insert_ne in Hid by done. by apply (Hdraft id review).
Qed.

Lemma one_pending_review_decided now later review_id decision user_id db :
  one_pending_review db →
  one_pending_review
    (ReviewService.submit_decision now later review_id decision user_id db).2.
Proof.
  intros [Hone Hdraft].
  destruct (submit_decision_session now later review_id decision user_id db)
    as [-> | (review & Hreview & Hpending & Hreviews & Hentries)]; [done|].
  (* a pending review after the decision was pending before it *)
  assert (Hwas : ∀ id r,
            <[review_id := Review.set_status (ReviewDecision.status decision)
                             review]> (reviews db) !! id = Some r →
            Review.status r = "pending" →
            ∃ r0, reviews db !! id = Some r0
                  ∧ Review.status r0 = "pending"
                  ∧ Review.entry_id r0 = Review.entry_id r
                  ∧ (id = review_id →
                     ReviewDecision.status decision = "pending")).
  { intros id r Hid Hp.
    destruct (decide (review_id = id)) as [<-|Hne].
    - rewrite lookup_insert_eq in Hid. injection Hid as <-.
      exists review. by repeat split.
    - rewrite lookup_insert_ne in Hid by done. exists r.
      repeat split; try done; intros ->; by destruct Hne. }
  unfold one_pending_review. rewrite Hreviews. split.
  - intros id1 id2 review1 review2 H1 H2 Hp1 Hp2 Hsame.
    destruct (Hwas _ _ H1 Hp1) as (r1 & Hr1 & Hq1 & He1 & _).
    destruct (Hwas _ _ H2 Hp2) as (r2 & Hr2 & Hq2 & He2 & _).
    apply (Hone id1 id2 r1 r2); try done. by rewrite He1, He2.
  - intros id r e Hid Hp.
    destruct (Hwas _ _ Hid Hp) as (r0 & Hr0 & Hq0 & He0 & Hstatus).
    destruct Hentries as [-> | (entry & entry' & Hentry & -> & Hnew)].
    + rewrite <- He0. by apply (Hdraft id r0).
    + destruct (decide (Review.entry_id review = Review.entry_id r))
        as [Heq|Hne].
      * rewrite Heq, lookup_insert_eq. intros [= <-].
        destruct Hnew as [[-> _] | [_ Hback]]; [done|].
        assert (id = review_id) as Hid'.
        { apply (Hone id review_id r0 review); try done. by rewrite He0. }
        specialize (Hstatus Hid'). rewrite Hstatus in Hback.
        by destruct Hback.
      * rewrite lookup_insert_ne by done. rewrite <- He0.
        by apply (Hdraft id r0).
Qed.

Lemma one_pending_review_entry_writes db :
  one_pending_review db →
  (∀ review_id participant_data,
     one_pending_review
       (ReviewService.add_participant review_id participant_data db).2)
  ∧ (∀ now entry_id,
       one_pending_review (EntryService.delete_entry now entry_id db).2)
  ∧ (∀ entry_id entry_data,
       one_pending_review
         (EntryService.update_entry entry_id entry_data db).2).
Proof.
  intros Hkept. split; [| split].
  - intros review_id participant_data.
    destruct (add_participant_session review_id participant_data db)
      as [Hes Hrs].
    by apply (one_pending_review_same db).
  - intros now entry_id.
    destruct (delete_entry_session now entry_id db)
      as [-> | (entry & Hentry & ->)]; [done|].
    apply (one_pending_review_entry db _ entry_id entry
             (Entry.set_workflow_state "retired" entry)); try done.
    by left.
  - intros entry_id entry_data.
    destruct (update_entry_session entry_id entry_data db)
      as [-> | (entry & entry' & Hentry & Hstate & ->)]; [done|].
    apply (one_pending_review_entry db _ entry_id entry entry'); try done.
    by right.
Qed.

(** *** Rows that are missing *)

(** X1. On an entry id that the session does not hold, every operation of
    the entry service and [create_review] raise [NotFoundError] with the
    id in the message and write nothing; the routes answer 404. *)
Theorem missing_entry_not_found now new_id entry_id new_state approved_by
    review_data created_by entry_data db :
  entries db !! entry_id = None →
  let missing := NotFoundError ("Entry " +:+ entry_id +:+ " not found") in
  EntryService.get_entry entry_id db = (Raised missing, db)
  ∧ EntryService.update_entry entry_id entry_data db = (Raised missing, db)
  ∧ EntryService.delete_entry now entry_id db = (Raised missing, db)
  ∧ EntryService.transition_workflow now entry_id new_state approved_by db
    = (Raised missing, db)
  ∧ ReviewService.create_review now new_id entry_id review_data created_by db
    = (Raised missing, db)
  ∧ EntryEndpoints.get_entry entry_id db = (HTTPException 404 missing, db)
  ∧ EntryEndpoints.update_entry entry_id entry_data db
    = (HTTPException 404 missing, db)
  ∧ EntryEndpoints.delete_entry now entry_id db
    = (HTTPException 404 missing, db)
  ∧ ReviewEndpoints.create_review now new_id entry_id review_data created_by
      db
    = (HTTPException 404 missing, db).
Proof.
  intros Hmissing missing.
  unfold EntryEndpoints.get_entry, EntryEndpoints.update_entry,
    EntryEndpoints.delete_entry, ReviewEndpoints.create_review.
  run_services. by rewrite Hmissing.
Qed.

(** X2. On a review id that the session does not hold, [get_review],
    [add_participant] and [submit_decision] raise [NotFoundError] with the
    id in the message and write nothing; the routes answer 404. *)
Theorem missing_review_not_found now later review_id participant_data decision
    user_id db :
  reviews db !! review_id = None →
  let missing := NotFoundError ("Review " +:+ review_id +:+ " not found") in
  ReviewService.get_review review_id db = (Raised missing, db)
  ∧ ReviewService.add_participant review_id participant_data db
    = (Raised missing, db)
  ∧ ReviewService.submit_decision now later review_id decision user_id db
    = (Raised missing, db)
  ∧ ReviewEndpoints.get_review review_id db = (HTTPException 404 missing, db)
  ∧ ReviewEndpoints.add_participant review_id participant_data db
    = (HTTPException 404 missing, db)
  ∧ ReviewEndpoints.submit_decision now later review_id decision user_id db
    = (HTTPException 404 missing, db).
Proof.
  intros Hmissing missing.
  unfold ReviewEndpoints.get_review, ReviewEndpoints.add_participant,
    ReviewEndpoints.submit_decision.
  run_services. by rewrite Hmissing.
Qed.

(** *** Participants *)

(** X3. Once a review is decided its participants are frozen:
    [add_participant] on a review that is not "pending" raises
    [ValidationError] naming the status and writes nothing; the route
    answers 400. *)
Theorem add_participant_frozen review_id review participant_data db :
  reviews db !! review_id = Some review →
  Review.status review ≠ "pending" →
  let refused :=
    ValidationError ("Cannot add participants to " +:+ Review.status review
                     +:+ " review") in
  ReviewService.add_participant review_id participant_data db
  = (Raised refused, db)
  ∧ ReviewEndpoints.add_participant review_id participant_data db
    = (HTTPException 400 refused, db).
Proof.
  intros Hget Hstatus refused. unfold ReviewEndpoints.add_participant.
  run_services. rewrite Hget. by rewrite bool_decide_eq_true_2.
Qed.

Lemma add_participant_pending review_id review participant_data db :
  reviews db !! review_id = Some review →
  Review.status review = "pending" →
  ReviewService.add_participant review_id participant_data db
  = (Returned (ReviewRepository.new_participant review_id participant_data),
     set_review_participants
       (λ rows, (rows ++ [ReviewRepository.new_participant review_id
                            participant_data])%list) db).
Proof.
  intros Hget Hstatus. run_services. rewrite Hget.
  by rewrite bool_decide_eq_false_2 by tauto.
Qed.

Lemma no_row_of_stranger review_id user_id db :
  user_id ∉ map ReviewParticipant.user_id
              (ReviewRepository.participants_of review_id db) →
  filter (ReviewRepository.is_participant review_id user_id)
    (review_participants db) = [].
Proof.
  intros Hnew.
  rewrite <- (filter_absent ReviewParticipant.user_id user_id
                (ReviewRepository.participants_of review_id db) Hnew).
  unfold ReviewRepository.participants_of. rewrite list_filter_filter.
  apply list_filter_iff. intros p. unfold ReviewRepository.is_participant.
  tauto.
Qed.

(** X4. The route [add_participant] stores a user who is not yet among the
    participants of a pending review, whatever the role and whatever the
    other rows: the row is appended, not yet approved, and the route
    answers 201.  A decision that this user sends as the next request, on
    the rows that [add_participant] has stored, is accepted, whatever the
    decision: the route [submit_decision] answers 200 with the review in
    the status of the decision. *)
Theorem added_participant_decides review_id review participant_data db :
  reviews db !! review_id = Some review →
  Review.status review = "pending" →
  ReviewParticipantCreate.user_id participant_data
  ∉ map ReviewParticipant.user_id
      (ReviewRepository.participants_of review_id db) →
  let added := ReviewRepository.new_participant review_id participant_data in
  let db1 :=
    set_review_participants (λ rows, (rows ++ [added])%list) db in
  ReviewEndpoints.add_participant review_id participant_data db
  = (Answer 201 added, db1)
  ∧ ReviewParticipant.approved_at added = None
  ∧ ReviewRepository.participants_of review_id db1
    = (ReviewRepository.participants_of review_id db ++ [added])%list
  ∧ ∀ now later decision,
      ∃ loaded db2,
        ReviewEndpoints.submit_decision now later review_id decision
          (ReviewParticipantCreate.user_id participant_data) db1
        = (Answer 200 (Some loaded), db2)
        ∧ Review.status (loaded_row loaded) = ReviewDecision.status decision.
Proof.
  intros Hget Hstatus Hnew added db1.
  assert (Hrows : ReviewRepository.participants_of review_id db1
                  = (ReviewRepository.participants_of review_id db
                     ++ [added])%list).
  { unfold ReviewRepository.participants_of.
    cbn [db1 review_participants set_review_participants].
    rewrite filter_app. f_equal. by rewrite filter_cons_True. }
  split; [| split; [done | split; [done|]]].
  { unfold ReviewEndpoints.add_participant.
    by rewrite (add_participant_pending _ _ _ _ Hget Hstatus). }
  intros now later decision.
  assert (Hrun := submit_decision_one_row now later db1 review_id review
                    decision
                    (ReviewParticipantCreate.user_id participant_data)).
  cbv zeta in Hrun. unfold ReviewEndpoints.submit_decision.
  rewrite Hrun; [by eexists _, _ | done | done | |].
  - rewrite Hrows, map_app. apply elem_of_app. right. by left.
  - intros _. exists added.
    cbn [db1 review_participants set_review_participants].
    rewrite filter_app, no_row_of_stranger by done.
    by rewrite filter_cons_True.
Qed.

(** X5. When a user has two rows among the participants of a pending
    review, an "approved" decision of that user raises
    [MultipleResultsFound] after the status of the review has been written:
    the session of the service holds the review as "approved" with the
    entry untouched.  The route answers 500 and rolls back, so that the
    stored review is still "pending". *)
Theorem duplicate_participant_half_written now later review_id review comment
    user_id db first second others :
  reviews db !! review_id = Some review →
  Review.status review = "pending" →
  filter (ReviewRepository.is_participant review_id user_id)
    (review_participants db) = first :: second :: others →
  ReviewService.submit_decision now later review_id
    (ReviewDecision.mk "approved" comment) user_id db
  = (Raised MultipleResultsFound,
     set_reviews (insert review_id (Review.set_status "approved" review)) db)
  ∧ ReviewEndpoints.submit_decision now later review_id
      (ReviewDecision.mk "approved" comment) user_id db
    = (HTTPException 500 MultipleResultsFound, db).
Proof.
  intros Hget Hstatus Hrows.
  assert (Hrun := submit_decision_two_rows now later review_id review comment
                    user_id db first second others Hget Hstatus Hrows).
  split; [exact Hrun|].
  unfold ReviewEndpoints.submit_decision. by rewrite Hrun.
Qed.

(** *** Writes of the entry service *)

Lemma set_entries_twice id entry db :
  set_entries (insert id entry) (set_entries (insert id entry) db)
  = set_entries (insert id entry) db.
Proof.
  unfold set_entries. cbn [entries reviews review_participants].
  by rewrite insert_insert_eq.
Qed.

Lemma delete_entry_some now entry_id entry db :
  entries db !! entry_id = Some entry →
  EntryService.delete_entry now entry_id db
  = (Returned true,
     set_entries
       (insert entry_id (Entry.set_workflow_state "retired" entry)) db).
Proof.
  intros Hget. unfold EntryService.delete_entry.
  rewrite (bind_returned _ _ _ _ _ (entry_get_eq entry_id db)), Hget.
  by erewrite bind_returned; [| by apply update_workflow_state_some].
Qed.

(** X6. [delete_entry] on an existing entry, in whatever state it is,
    returns [True] and writes "retired" as its state, every other column
    being kept; deleting again changes nothing more; the route answers
    204. *)
Theorem delete_entry_retires now now' entry_id entry db :
  entries db !! entry_id = Some entry →
  let retired := Entry.set_workflow_state "retired" entry in
  let db' := set_entries (insert entry_id retired) db in
  EntryService.delete_entry now entry_id db = (Returned true, db')
  ∧ EntryService.delete_entry now' entry_id db' = (Returned true, db')
  ∧ EntryEndpoints.delete_entry now entry_id db = (Answer 204 tt, db').
Proof.
  intros Hget retired db'.
  assert (Hrun := delete_entry_some now entry_id entry db Hget).
  split; [exact Hrun | split].
  - rewrite (delete_entry_some now' entry_id retired db').
    + subst db'. by rewrite set_entries_twice.
    + apply lookup_insert_eq.
  - unfold EntryEndpoints.delete_entry. by rewrite Hrun.
Qed.

Lemma transition_workflow_session now entry_id new_state approved_by db :
  let db' := (EntryService.transition_workflow now entry_id new_state
                approved_by db).2 in
  db' = db
  ∨ ∃ entry,
      entries db !! entry_id = Some entry
      ∧ new_state ∈ EntryService.valid_transitions
                      (Entry.workflow_state entry)
      ∧ EntryService.transition_workflow now entry_id new_state approved_by db
        = (Returned (Some (stamped now new_state approved_by entry)),
           set_entries
             (insert entry_id (stamped now new_state approved_by entry)) db).
Proof.
  intros db'. subst db'. unfold EntryService.transition_workflow.
  rewrite (bind_returned _ _ _ _ _ (entry_get_eq entry_id db)).
  destruct (entries db !! entry_id) as [entry|] eqn:Hget; [| by left].
  case_bool_decide as Hin; [by left|]. right. exists entry.
  rewrite (update_workflow_state_some _ _ _ _ _ _ Hget). by repeat split.
Qed.

(** X7. A legal [transition_workflow] stamps the approver whenever one is
    given, whatever the target state: a non-empty [approved_by] is written
    with the time of the call; with no approver, or an empty one, both
    stamps stay as they were. *)
Theorem transition_workflow_stamps now entry_id entry new_state approved_by db :
  entries db !! entry_id = Some entry →
  new_state ∈ EntryService.valid_transitions (Entry.workflow_state entry) →
  ∃ entry',
    EntryService.transition_workflow now entry_id new_state approved_by db
    = (Returned (Some entry'), set_entries (insert entry_id entry') db)
    ∧ Entry.workflow_state entry' = new_state
    ∧ (∀ user, approved_by = Some user → user ≠ "" →
         Entry.approved_by entry' = Some user
         ∧ Entry.approved_at entry' = Some now)
    ∧ (approved_by = None ∨ approved_by = Some "" →
         Entry.approved_by entry' = Entry.approved_by entry
         ∧ Entry.approved_at entry' = Entry.approved_at entry).
Proof.
  intros Hget Hlegal. exists (stamped now new_state approved_by entry).
  split.
  { unfold EntryService.transition_workflow.
    rewrite (bind_returned _ _ _ _ _ (entry_get_eq entry_id db)), Hget.
    rewrite bool_decide_eq_false_2 by tauto.
    by apply update_workflow_state_some. }
  split; [apply stamped_workflow_state|]. unfold stamped, truthy_str. split.
  - intros user -> Huser. by rewrite bool_decide_eq_false_2.
  - by intros [-> | ->].
Qed.

Lemma entry_written_same_ids (rows : gmap string Entry.t) id entry entry' :
  rows !! id = Some entry → dom (<[id := entry']> rows) = dom rows.
Proof. intros Hget. by apply dom_insert_lookup_L. Qed.

Lemma review_written_more_ids (rows : gmap string Review.t) id review :
  dom rows ⊆ dom (<[id := review]> rows).
Proof. rewrite dom_insert_L. set_solver. Qed.

(** X8. No operation creates or removes an entry, removes a review or
    removes a participant, whatever its arguments and whether it returns
    or raises: deleting an entry only retires it. *)
Theorem rows_are_kept db :
  (∀ now entry_id new_state approved_by,
     keeps_rows db
       (EntryService.transition_workflow now entry_id new_state approved_by
          db).2)
  ∧ (∀ now entry_id,
       keeps_rows db (EntryService.delete_entry now entry_id db).2)
  ∧ (∀ entry_id entry_data,
       keeps_rows db (EntryService.update_entry entry_id entry_data db).2)
  ∧ (∀ now new_id entry_id review_data created_by,
       keeps_rows db
         (ReviewService.create_review now new_id entry_id review_data
            created_by db).2)
  ∧ (∀ review_id participant_data,
       keeps_rows db
         (ReviewService.add_participant review_id participant_data db).2)
  ∧ (∀ now later review_id decision user_id,
       keeps_rows db
         (ReviewService.submit_decision now later review_id decision user_id
            db).2).
Proof.
  unfold keeps_rows. repeat split; run_services;
    repeat (case_match; simplify_eq/=);
    rewrite ?length_app, ?length_map;
    eauto using entry_written_same_ids, review_written_more_ids; lia.
Qed.

(** X9. [update_entry] is open on drafts and on entries in review only: in
    any other state it raises [WorkflowError] naming the state and writes
    nothing; the route answers 400. *)
Theorem update_entry_gate entry_id entry entry_data db :
  entries db !! entry_id = Some entry →
  Entry.workflow_state entry ∉ ["draft"; "in_review"] →
  let refused :=
    WorkflowError ("Cannot update entry in " +:+ Entry.workflow_state entry
                   +:+ " state") in
  EntryService.update_entry entry_id entry_data db = (Raised refused, db)
  ∧ EntryEndpoints.update_entry entry_id entry_data db
    = (HTTPException 400 refused, db).
Proof.
  intros Hget Hstate refused. unfold EntryEndpoints.update_entry.
  run_services. rewrite Hget. by rewrite bool_decide_eq_true_2.
Qed.

(** X10. On a draft or an entry in review [update_entry] replaces the
    fields that the request gives and keeps the others; the workflow
    state, the author, the approval stamps and the merge target are never
    touched.  It returns the entry as written and the route answers 200. *)
Theorem update_entry_writes_given_fields entry_id entry entry_data db :
  entries db !! entry_id = Some entry →
  Entry.workflow_state entry ∈ ["draft"; "in_review"] →
  ∃ entry',
    EntryService.update_entry entry_id entry_data db
    = (Returned (Some entry'), set_entries (insert entry_id entry') db)
    ∧ EntryEndpoints.update_entry entry_id entry_data db
      = (Answer 200 (Some entry'), set_entries (insert entry_id entry') db)
    ∧ Entry.title entry'
      = default (Entry.title entry) (EntryUpdate.title entry_data)
    ∧ Entry.description entry'
      = default (Entry.description entry)
          (EntryUpdate.description entry_data)
    ∧ Entry.severity entry'
      = default (Entry.severity entry) (EntryUpdate.severity entry_data)
    ∧ Entry.root_cause entry'
      = match EntryUpdate.root_cause entry_data with
        | Some cause => Some cause
        | None => Entry.root_cause entry
        end
    ∧ Entry.workflow_state entry' = Entry.workflow_state entry
    ∧ Entry.created_by entry' = Entry.created_by entry
    ∧ Entry.approved_by entry' = Entry.approved_by entry
    ∧ Entry.approved_at entry' = Entry.approved_at entry
    ∧ Entry.merged_into_id entry' = Entry.merged_into_id entry.
Proof.
  intros Hget Hstate. exists (updated entry_data entry).
  assert (Hrun := update_entry_some entry_id entry entry_data db Hget Hstate).
  split; [exact Hrun | split].
  - unfold EntryEndpoints.update_entry. by rewrite Hrun.
  - by destruct entry_data as [[?|] [?|] [?|] [?|]].
Qed.

(** *** One pending review for an entry *)

(** X11. The operations that the routes call keep one pending review for
    an entry: when no two pending reviews are on the same entry and no
    pending review is on a draft, the same holds in the session that
    [create_review], [submit_decision], [add_participant], [delete_entry]
    or [update_entry] leaves, whatever the arguments and whether the call
    returns or raises. *)
Theorem one_pending_review_kept db :
  one_pending_review db →
  (∀ now new_id entry_id review_data created_by,
     one_pending_review
       (ReviewService.create_review now new_id entry_id review_data
          created_by db).2)
  ∧ (∀ now later review_id decision user_id,
       one_pending_review
         (ReviewService.submit_decision now later review_id decision user_id
            db).2)
  ∧ (∀ review_id participant_data,
       one_pending_review
         (ReviewService.add_participant review_id participant_data db).2)
  ∧ (∀ now entry_id,
       one_pending_review (EntryService.delete_entry now entry_id db).2)
  ∧ (∀ entry_id entry_data,
       one_pending_review
         (EntryService.update_entry entry_id entry_data db).2).
Proof.
  intros Hkept.
  destruct (one_pending_review_entry_writes db Hkept)
    as (Hadded & Hdeleted & Hupdated).
  split; [| split; [| split; [| split]]].
  - intros. by apply one_pending_review_created.
  - intros. by apply one_pending_review_decided.
  - exact Hadded.
  - exact Hdeleted.
  - exact Hupdated.
Qed.

(** X12. [transition_workflow] does not keep it: an entry in review whose
    review is pending is sent back to "draft", a second review is opened
    on it, and two pending reviews are on the same entry. *)
Theorem transition_workflow_reopens_draft now now' review_id review entry
    new_id review_data created_by db :
  reviews db !! review_id = Some review →
  Review.status review = "pending" →
  entries db !! Review.entry_id review = Some entry →
  Entry.workflow_state entry = "in_review" →
  reviews db !! new_id = None →
  let db1 := (EntryService.transition_workflow now (Review.entry_id review)
                "draft" None db).2 in
  let db2 := (ReviewService.create_review now' new_id (Review.entry_id review)
                review_data created_by db1).2 in
  reviews db2 !! review_id = Some review
  ∧ (∃ second,
       reviews db2 !! new_id = Some second
       ∧ Review.status second = "pending"
       ∧ Review.entry_id second = Review.entry_id review)
  ∧ review_id ≠ new_id
  ∧ ¬ one_pending_review db2.
Proof.
  intros Hget Hpending Hentry Hstate Hfresh db1 db2.
  assert (Hne : review_id ≠ new_id) by (intros ->; congruence).
  assert (Hdb1 : db1 = set_entries
                         (insert (Review.entry_id review)
                            (Entry.set_workflow_state "draft" entry)) db).
  { subst db1. unfold EntryService.transition_workflow.
    rewrite (bind_returned _ _ _ _ _ (entry_get_eq _ db)), Hentry.
    rewrite bool_decide_eq_false_2.
    - by rewrite (update_workflow_state_some _ _ _ _ _ _ Hentry).
    - rewrite Hstate. intros Hnot. apply Hnot. decided_by_evaluation. }
  assert (Hdb2 : reviews db2
                 = <[new_id := Review.mk (Review.entry_id review) "pending"
                                 (ReviewCreate.rca_text review_data)]>
                     (reviews db)).
  { subst db2. unfold ReviewService.create_review.
    rewrite (bind_returned _ _ _ _ _ (entry_get_eq _ db1)), Hdb1.
    cbn [entries set_entries]. rewrite lookup_insert_eq.
    rewrite bool_decide_eq_false_2 by (by intros []).
    erewrite bind_returned;
      [| apply create_with_participants_fresh; exact Hfresh].
    erewrite bind_returned;
      [| apply update_workflow_state_some; apply lookup_insert_eq].
    by erewrite get_with_participants_some; [| apply lookup_insert_eq]. }
  assert (Hfirst : reviews db2 !! review_id = Some review)
    by (rewrite Hdb2; by rewrite lookup_insert_ne).
  assert (Hsecond : reviews db2 !! new_id
                    = Some (Review.mk (Review.entry_id review) "pending"
                              (ReviewCreate.rca_text review_data)))
    by (rewrite Hdb2; apply lookup_insert_eq).
  split; [done|]. split; [by eexists|]. split; [done|].
  intros [Hone _]. apply Hne.
  by apply (Hone review_id new_id review _ Hfirst Hsecond).
Qed.

(** *** The ways through the table *)

(** X13. When [transition_workflow] returns, the move was one of the
    table: an entry is published only from "in_review" and merged only
    from "published", no entry moves to the state it is in, and none
    leaves "retired" or "merged". *)
Theorem published_only_from_review now entry_id entry new_state approved_by
    written db :
  entries db !! entry_id = Some entry →
  (EntryService.transition_workflow now entry_id new_state approved_by db).1
  = Returned written →
  (new_state = "published" → Entry.workflow_state entry = "in_review")
  ∧ (new_state = "merged" → Entry.workflow_state entry = "published")
  ∧ new_state ≠ Entry.workflow_state entry
  ∧ Entry.workflow_state entry ≠ "retired"
  ∧ Entry.workflow_state entry ≠ "merged".
Proof.
  intros Hget. unfold EntryService.transition_workflow.
  rewrite (bind_returned _ _ _ _ _ (entry_get_eq entry_id db)), Hget.
  case_bool_decide as Hin; [discriminate|]. intros _.
  rewrite valid_transitions_row in Hin.
  destruct (decide (Entry.workflow_state entry = "draft")) as [Hd|Hd];
    [| destruct (decide (Entry.workflow_state entry = "in_review"))
         as [Hr|Hr];
       [| destruct (decide (Entry.workflow_state entry = "published"))
            as [Hp|Hp]]];
    rewrite ?elem_of_cons, ?elem_of_nil in Hin;
    repeat (destruct Hin as [Hin|Hin]); subst; try done;
    repeat split; congruence.
Qed.

(** *** After the decision *)


(** *** Reading a review back *)

(** X15. [create_review] attaches the participants of the request, in
    their order and not yet approved, and what it returns is what
    [get_review] reads afterwards; with no participants in the request, or
    an empty list, the review has none. *)
Theorem create_review_attaches_participants now new_id entry_id entry
    review_data created_by db :
  entries db !! entry_id = Some entry →
  Entry.workflow_state entry = "draft" →
  reviews db !! new_id = None →
  ReviewRepository.participants_of new_id db = [] →
  ∃ loaded db',
    ReviewService.create_review now new_id entry_id review_data created_by db
    = (Returned (Some loaded), db')
    ∧ loaded_participants loaded
      = map (ReviewRepository.new_participant new_id)
          (default [] (ReviewCreate.participants review_data))
    ∧ ReviewService.get_review new_id db' = (Returned loaded, db')
    ∧ ReviewEndpoints.get_review new_id db' = (Answer 200 loaded, db').
Proof.
  intros Hget Hdraft Hfresh Hnone.
  unfold ReviewService.create_review.
  rewrite (bind_returned _ _ _ _ _ (entry_get_eq entry_id db)), Hget.
  rewrite bool_decide_eq_false_2 by tauto.
  rewrite (bind_returned _ _ _ _ _
             (create_with_participants_fresh _ _ _ _ Hfresh)).
  erewrite bind_returned;
    [| by apply update_workflow_state_some with (entry := entry)].
  erewrite get_with_participants_some; [| apply lookup_insert_eq].
  eexists _, _. split; [reflexivity|].
  assert (Hrows : ∀ rows : list ReviewParticipantCreate.t,
            filter (λ p, ReviewParticipant.review_id p = new_id)
              (map (ReviewRepository.new_participant new_id) rows)
            = map (ReviewRepository.new_participant new_id) rows).
  { induction rows as [|row rows IH]; [done|]. cbn [map].
    rewrite filter_cons_True by done. by rewrite IH. }
  assert (Hattached :
            ReviewRepository.participants_of new_id
              (set_entries
                 (insert entry_id (stamped now "in_review" None entry))
                 (mkSession (entries db)
                    (<[new_id := Review.mk entry_id "pending"
                                   (ReviewCreate.rca_text review_data)]>
                       (reviews db))
                    (if truthy_list
                          (if truthy_list
                                (ReviewCreate.participants review_data)
                           then ReviewCreate.participants review_data
                           else None)
                     then review_participants db
                          ++ map (ReviewRepository.new_participant new_id)
                               (default []
                                  (if truthy_list
                                        (ReviewCreate.participants
                                           review_data)
                                   then ReviewCreate.participants review_data
                                   else None))
                     else review_participants db)%list))
            = map (ReviewRepository.new_participant new_id)
                (default [] (ReviewCreate.participants review_data))).
  { unfold ReviewRepository.participants_of in *.
    cbn [review_participants set_entries].
    destruct (ReviewCreate.participants review_data) as [[|row rows]|];
      cbn [truthy_list default]; rewrite ?filter_app, ?Hnone, ?Hrows; done. }
  cbn [loaded_participants]. split; [exact Hattached|].
  unfold ReviewEndpoints.get_review, ReviewService.get_review.
  erewrite bind_returned;
    [| apply get_with_participants_some; apply lookup_insert_eq].
  done.
Qed.

(** *** Terminal states under the guarded operations *)

(** X16. The operations that test the state of the entry leave a
    "retired" or "merged" entry alone: [transition_workflow], whatever the
    target, [create_review] and [update_entry] raise [WorkflowError] and
    write nothing. *)
Theorem guarded_operations_keep_terminal now new_id entry_id entry new_state
    approved_by review_data created_by entry_data db :
  entries db !! entry_id = Some entry →
  Entry.workflow_state entry = "retired"
  ∨ Entry.workflow_state entry = "merged" →
  (∃ msg,
     EntryService.transition_workflow now entry_id new_state approved_by db
     = (Raised (WorkflowError msg), db))
  ∧ (∃ msg,
       ReviewService.create_review now new_id entry_id review_data created_by
         db
       = (Raised (WorkflowError msg), db))
  ∧ (∃ msg,
       EntryService.update_entry entry_id entry_data db
       = (Raised (WorkflowError msg), db)).
Proof.
  intros Hget Hterminal. split; [| split]; eexists.
  - unfold EntryService.transition_workflow.
    rewrite (bind_returned _ _ _ _ _ (entry_get_eq entry_id db)), Hget.
    rewrite bool_decide_eq_true_2; [done|].
    rewrite valid_transitions_row.
    destruct Hterminal as [-> | ->]; apply not_elem_of_nil.
  - unfold ReviewService.create_review.
    rewrite (bind_returned _ _ _ _ _ (entry_get_eq entry_id db)), Hget.
    rewrite bool_decide_eq_true_2; [done|].
    by destruct Hterminal as [-> | ->].
  - unfold EntryService.update_entry.
    rewrite (bind_returned _ _ _ _ _ (entry_get_eq entry_id db)), Hget.
    rewrite bool_decide_eq_true_2; [done|].
    destruct Hterminal as [-> | ->]; decided_by_evaluation.
Qed.

(** *** The further theorems at the sample sessions *)

Lemma missing_entry_not_found_witness :
  let missing := NotFoundError "Entry e9 not found" in
  let nothing := EntryUpdate.mk None None None None in
  EntryService.get_entry "e9" db_orphan = (Raised missing, db_orphan)
  ∧ EntryService.update_entry "e9" nothing db_orphan
    = (Raised missing, db_orphan)
  ∧ EntryService.delete_entry 1 "e9" db_orphan = (Raised missing, db_orphan)
  ∧ EntryService.transition_workflow 1 "e9" "retired" None db_orphan
    = (Raised missing, db_orphan)
  ∧ ReviewService.create_review 1 "r2" "e9" sample_review "carol" db_orphan
    = (Raised missing, db_orphan)
  ∧ EntryEndpoints.get_entry "e9" db_orphan
    = (HTTPException 404 missing, db_orphan)
  ∧ EntryEndpoints.update_entry "e9" nothing db_orphan
    = (HTTPException 404 missing, db_orphan)
  ∧ EntryEndpoints.delete_entry 1 "e9" db_orphan
    = (HTTPException 404 missing, db_orphan)
  ∧ ReviewEndpoints.create_review 1 "r2" "e9" sample_review "carol" db_orphan
    = (HTTPException 404 missing, db_orphan).
Proof.
  apply (missing_entry_not_found 1 "r2" "e9" "retired" None sample_review
           "carol" (EntryUpdate.mk None None None None) db_orphan).
  evaluated.
Defined.

Lemma missing_review_not_found_witness :
  let missing := NotFoundError "Review r1 not found" in
  let carol := ReviewParticipantCreate.mk "carol" "observer" in
  ReviewService.get_review "r1" db_draft = (Raised missing, db_draft)
  ∧ ReviewService.add_participant "r1" carol db_draft
    = (Raised missing, db_draft)
  ∧ ReviewService.submit_decision 1 2 "r1" approve "alice" db_draft
    = (Raised missing, db_draft)
  ∧ ReviewEndpoints.get_review "r1" db_draft
    = (HTTPException 404 missing, db_draft)
  ∧ ReviewEndpoints.add_participant "r1" carol db_draft
    = (HTTPException 404 missing, db_draft)
  ∧ ReviewEndpoints.submit_decision 1 2 "r1" approve "alice" db_draft
    = (HTTPException 404 missing, db_draft).
Proof.
  apply (missing_review_not_found 1 2 "r1"
           (ReviewParticipantCreate.mk "carol" "observer") approve "alice"
           db_draft).
  evaluated.
Defined.

Lemma add_participant_frozen_witness :
  let carol := ReviewParticipantCreate.mk "carol" "observer" in
  let refused :=
    ValidationError "Cannot add participants to approved review" in
  ReviewService.add_participant "r1" carol db_published
  = (Raised refused, db_published)
  ∧ ReviewEndpoints.add_participant "r1" carol db_published
    = (HTTPException 400 refused, db_published).
Proof.
  apply (add_participant_frozen "r1" (Review.mk "e1" "approved" None)
           (ReviewParticipantCreate.mk "carol" "observer") db_published);
    evaluated.
Defined.

Lemma added_participant_decides_witness :
  let carol := ReviewParticipantCreate.mk "carol" "observer" in
  let added := ReviewRepository.new_participant "r1" carol in
  let db1 :=
    set_review_participants (λ rows, (rows ++ [added])%list) db_in_review in
  ReviewEndpoints.add_participant "r1" carol db_in_review
  = (Answer 201 added, db1)
  ∧ ReviewParticipant.approved_at added = None
  ∧ ReviewRepository.participants_of "r1" db1
    = (ReviewRepository.participants_of "r1" db_in_review ++ [added])%list
  ∧ ∀ now later decision,
      ∃ loaded db2,
        ReviewEndpoints.submit_decision now later "r1" decision
          (ReviewParticipantCreate.user_id carol) db1
        = (Answer 200 (Some loaded), db2)
        ∧ Review.status (loaded_row loaded) = ReviewDecision.status decision.
Proof.
  apply (added_participant_decides "r1" (Review.mk "e1" "pending" None)
           (ReviewParticipantCreate.mk "carol" "observer") db_in_review);
    [evaluated | evaluated | decided_by_evaluation].
Defined.

Lemma duplicate_participant_half_written_witness :
  ReviewService.submit_decision 3 4 "r1" (ReviewDecision.mk "approved" None)
    "alice" db_twice
  = (Raised MultipleResultsFound,
     set_reviews
       (insert "r1" (Review.set_status "approved"
                       (Review.mk "e1" "pending" None))) db_twice)
  ∧ ReviewEndpoints.submit_decision 3 4 "r1"
      (ReviewDecision.mk "approved" None) "alice" db_twice
    = (HTTPException 500 MultipleResultsFound, db_twice).
Proof.
  apply (duplicate_participant_half_written 3 4 "r1"
           (Review.mk "e1" "pending" None) None "alice" db_twice
           (ReviewParticipant.mk "r1" "alice" "lead" None)
           (ReviewParticipant.mk "r1" "alice" "reviewer" None) []);
    evaluated.
Defined.

Lemma delete_entry_retires_witness :
  let published :=
    stamped 4 "published" (Some "alice")
      (Entry.set_workflow_state "in_review" sample_entry) in
  let retired := Entry.set_workflow_state "retired" published in
  let db' := set_entries (insert "e1" retired) db_published in
  EntryService.delete_entry 4 "e1" db_published = (Returned true, db')
  ∧ EntryService.delete_entry 5 "e1" db' = (Returned true, db')
  ∧ EntryEndpoints.delete_entry 4 "e1" db_published = (Answer 204 tt, db').
Proof.
  apply (delete_entry_retires 4 5 "e1"
           (stamped 4 "published" (Some "alice")
              (Entry.set_workflow_state "in_review" sample_entry))
           db_published).
  evaluated.
Defined.

Lemma transition_workflow_stamps_witness :
  ∃ entry',
    EntryService.transition_workflow 5 "e1" "retired" (Some "dave") db_draft
    = (Returned (Some entry'), set_entries (insert "e1" entry') db_draft)
    ∧ Entry.workflow_state entry' = "retired"
    ∧ (∀ user, Some "dave" = Some user → user ≠ "" →
         Entry.approved_by entry' = Some user
         ∧ Entry.approved_at entry' = Some 5%Z)
    ∧ (Some "dave" = None ∨ Some "dave" = Some "" →
         Entry.approved_by entry' = Entry.approved_by sample_entry
         ∧ Entry.approved_at entry' = Entry.approved_at sample_entry).
Proof.
  apply (transition_workflow_stamps 5 "e1" sample_entry "retired"
           (Some "dave") db_draft);
    [evaluated | decided_by_evaluation].
Defined.

Lemma update_entry_gate_witness :
  let nothing := EntryUpdate.mk None None None None in
  let refused := WorkflowError "Cannot update entry in published state" in
  EntryService.update_entry "e1" nothing db_published
  = (Raised refused, db_published)
  ∧ EntryEndpoints.update_entry "e1" nothing db_published
    = (HTTPException 400 refused, db_published).
Proof.
  apply (update_entry_gate "e1"
           (stamped 4 "published" (Some "alice")
              (Entry.set_workflow_state "in_review" sample_entry))
           (EntryUpdate.mk None None None None) db_published);
    [evaluated | decided_by_evaluation].
Defined.

Lemma update_entry_writes_given_fields_witness :
  let request :=
    EntryUpdate.mk (Some "Disk full on db-02") None (Some "critical") None in
  ∃ entry',
    EntryService.update_entry "e1" request db_draft
    = (Returned (Some entry'), set_entries (insert "e1" entry') db_draft)
    ∧ EntryEndpoints.update_entry "e1" request db_draft
      = (Answer 200 (Some entry'), set_entries (insert "e1" entry') db_draft)
    ∧ Entry.title entry'
      = default (Entry.title sample_entry) (EntryUpdate.title request)
    ∧ Entry.description entry'
      = default (Entry.description sample_entry)
          (EntryUpdate.description request)
    ∧ Entry.severity entry'
      = default (Entry.severity sample_entry) (EntryUpdate.severity request)
    ∧ Entry.root_cause entry'
      = match EntryUpdate.root_cause request with
        | Some cause => Some cause
        | None => Entry.root_cause sample_entry
        end
    ∧ Entry.workflow_state entry' = Entry.workflow_state sample_entry
    ∧ Entry.created_by entry' = Entry.created_by sample_entry
    ∧ Entry.approved_by entry' = Entry.approved_by sample_entry
    ∧ Entry.approved_at entry' = Entry.approved_at sample_entry
    ∧ Entry.merged_into_id entry' = Entry.merged_into_id sample_entry.
Proof.
  apply (update_entry_writes_given_fields "e1" sample_entry
           (EntryUpdate.mk (Some "Disk full on db-02") None (Some "critical")
              None) db_draft);
    [evaluated | decided_by_evaluation].
Defined.

Lemma db_in_review_one_pending : one_pending_review db_in_review.
Proof.
  assert (Hreviews : reviews db_in_review
                     = {[ "r1" := Review.mk "e1" "pending" None ]})
    by (vm_compute; reflexivity).
  assert (Hentries : entries db_in_review
                     = {[ "e1" := Entry.set_workflow_state "in_review"
                                    sample_entry ]})
    by (vm_compute; reflexivity).
  unfold one_pending_review. rewrite Hreviews, Hentries. split.
  - intros id1 id2 review1 review2 H1 H2 _ _ _.
    apply lookup_singleton_Some in H1 as [<- _].
    by apply lookup_singleton_Some in H2 as [<- _].
  - intros id review entry Hid _ Hentry.
    apply lookup_singleton_Some in Hid as [_ <-].
    by apply lookup_singleton_Some in Hentry as [_ <-].
Qed.

Lemma one_pending_review_kept_witness :
  (∀ now new_id entry_id review_data created_by,
     one_pending_review
       (ReviewService.create_review now new_id entry_id review_data
          created_by db_in_review).2)
  ∧ (∀ now later review_id decision user_id,
       one_pending_review
         (ReviewService.submit_decision now later review_id decision user_id
            db_in_review).2)
  ∧ (∀ review_id participant_data,
       one_pending_review
         (ReviewService.add_participant review_id participant_data
            db_in_review).2)
  ∧ (∀ now entry_id,
       one_pending_review
         (EntryService.delete_entry now entry_id db_in_review).2)
  ∧ (∀ entry_id entry_data,
       one_pending_review
         (EntryService.update_entry entry_id entry_data db_in_review).2).
Proof.
  apply (one_pending_review_kept db_in_review).
  exact db_in_review_one_pending.
Defined.

Lemma transition_workflow_reopens_draft_witness :
  let db1 := (EntryService.transition_workflow 2 "e1" "draft" None
                db_in_review).2 in
  let db2 := (ReviewService.create_review 3 "r2" "e1" sample_review "carol"
                db1).2 in
  reviews db2 !! "r1" = Some (Review.mk "e1" "pending" None)
  ∧ (∃ second,
       reviews db2 !! "r2" = Some second
       ∧ Review.status second = "pending"
       ∧ Review.entry_id second = "e1")
  ∧ "r1" ≠ "r2"
  ∧ ¬ one_pending_review db2.
Proof.
  apply (transition_workflow_reopens_draft 2 3 "r1"
           (Review.mk "e1" "pending" None)
           (Entry.set_workflow_state "in_review" sample_entry) "r2"
           sample_review "carol" db_in_review); evaluated.
Defined.

Lemma published_only_from_review_witness :
  ("published" = "published" →
   Entry.workflow_state (Entry.set_workflow_state "in_review" sample_entry)
   = "in_review")
  ∧ ("published" = "merged" →
     Entry.workflow_state (Entry.set_workflow_state "in_review" sample_entry)
     = "published")
  ∧ "published"
    ≠ Entry.workflow_state (Entry.set_workflow_state "in_review" sample_entry)
  ∧ Entry.workflow_state (Entry.set_workflow_state "in_review" sample_entry)
    ≠ "retired"
  ∧ Entry.workflow_state (Entry.set_workflow_state "in_review" sample_entry)
    ≠ "merged".
Proof.
  apply (published_only_from_review 5 "e1"
           (Entry.set_workflow_state "in_review" sample_entry) "published"
           (Some "alice")
           (Some (stamped 5 "published" (Some "alice")
                    (Entry.set_workflow_state "in_review" sample_entry)))
           db_in_review); evaluated.
Defined.


Lemma create_review_attaches_participants_witness :
  ∃ loaded db',
    ReviewService.create_review 1 "r1" "e1" sample_review "carol" db_draft
    = (Returned (Some loaded), db')
    ∧ loaded_participants loaded
      = map (ReviewRepository.new_participant "r1")
          (default [] (ReviewCreate.participants sample_review))
    ∧ ReviewService.get_review "r1" db' = (Returned loaded, db')
    ∧ ReviewEndpoints.get_review "r1" db' = (Answer 200 loaded, db').
Proof.
  apply (create_review_attaches_participants 1 "r1" "e1" sample_entry
           sample_review "carol" db_draft); evaluated.
Defined.

Lemma guarded_operations_keep_terminal_witness :
  (∃ msg,
     EntryService.transition_workflow 5 "e1" "draft" None db_retired
     = (Raised (WorkflowError msg), db_retired))
  ∧ (∃ msg,
       ReviewService.create_review 5 "r2" "e1" sample_review "carol"
         db_retired
       = (Raised (WorkflowError msg), db_retired))
  ∧ (∃ msg,
       EntryService.update_entry "e1" (EntryUpdate.mk None None None None)
         db_retired
       = (Raised (WorkflowError msg), db_retired)).
Proof.
  apply (guarded_operations_keep_terminal 5 "r2" "e1"
           (Entry.set_workflow_state "retired"
              (Entry.set_workflow_state "in_review" sample_entry))
           "draft" None sample_review "carol"
           (EntryUpdate.mk None None None None) db_retired);
    [evaluated | left; evaluated].
Defined.

(** *** Participants keep a name, in every operation *)

(** X17. When every participant row has a user id that is not empty, it
    stays so under every operation, the user ids of the participants that
    a request names being not empty, which [min_length=1] of
    [ReviewParticipantCreate] makes of every valid request: no participant
    is ever stored without a name, so that an approval always finds an
    approver to stamp. *)
Theorem participants_stay_named db :
  participants_named db →
  (∀ now new_id entry_id review_data created_by,
     Forall (λ p, ReviewParticipantCreate.user_id p ≠ "")
       (default [] (ReviewCreate.participants review_data)) →
     participants_named
       (ReviewService.create_review now new_id entry_id review_data
          created_by db).2)
  ∧ (∀ review_id participant_data,
       ReviewParticipantCreate.user_id participant_data ≠ "" →
       participants_named
         (ReviewService.add_participant review_id participant_data db).2)
  ∧ (∀ now later review_id decision user_id,
       participants_named
         (ReviewService.submit_decision now later review_id decision user_id
            db).2)
  ∧ (∀ now entry_id,
       participants_named (EntryService.delete_entry now entry_id db).2)
  ∧ (∀ now entry_id new_state approved_by,
       participants_named
         (EntryService.transition_workflow now entry_id new_state approved_by
            db).2)
  ∧ (∀ review_id user_id,
       user_id ∈ map ReviewParticipant.user_id
                   (ReviewRepository.participants_of review_id db) →
       user_id ≠ "")
  ∧ (∀ participant_data,
       ReviewParticipantCreate.valid participant_data = true →
       ReviewParticipantCreate.user_id participant_data ≠ "").
Proof.
  intros Hnamed. repeat split.
  - intros. by apply create_review_named.
  - intros. by apply add_participant_named.
  - intros. by apply submit_decision_named.
  - intros. by apply delete_entry_named.
  - intros. by apply transition_workflow_named.
  - intros review_id user_id. by apply participant_named.
  - intros participant_data Hvalid Hempty.
    by apply (valid_participant_named participant_data).
Qed.

Lemma participants_stay_named_witness :
  (∀ now new_id entry_id review_data created_by,
     Forall (λ p, ReviewParticipantCreate.user_id p ≠ "")
       (default [] (ReviewCreate.participants review_data)) →
     participants_named
       (ReviewService.create_review now new_id entry_id review_data
          created_by db_in_review).2)
  ∧ (∀ review_id participant_data,
       ReviewParticipantCreate.user_id participant_data ≠ "" →
       participants_named
         (ReviewService.add_participant review_id participant_data
            db_in_review).2)
  ∧ (∀ now later review_id decision user_id,
       participants_named
         (ReviewService.submit_decision now later review_id decision user_id
            db_in_review).2)
  ∧ (∀ now entry_id,
       participants_named
         (EntryService.delete_entry now entry_id db_in_review).2)
  ∧ (∀ now entry_id new_state approved_by,
       participants_named
         (EntryService.transition_workflow now entry_id new_state approved_by
            db_in_review).2)
  ∧ (∀ review_id user_id,
       user_id ∈ map ReviewParticipant.user_id
                   (ReviewRepository.participants_of review_id db_in_review) →
       user_id ≠ "")
  ∧ (∀ participant_data,
       ReviewParticipantCreate.valid participant_data = true →
       ReviewParticipantCreate.user_id participant_data ≠ "").
Proof.
  apply (participants_stay_named db_in_review).
  unfold participants_named. decided_by_evaluation.
Defined.

(** *** Characters *)

(** A character of two bytes counts once: a user id of 128 such
    characters is within [max_length=255]. *)
Example len_counts_characters :
  len "é" = 1 ∧ String.length "é" = 2 ∧ len "" = 0 ∧ len "alice" = 5.
Proof. by vm_compute. Qed.

(** *** Two rows for one participant *)

(** C3. The approval of a participant does not always go through.  Alice
    is a participant of the pending review "r1" of the entry "e1", with two
    rows: one from [create_review], one from [add_participant].  Her
    "approved" decision raises [MultipleResultsFound] in
    [approve_by_participant]: the entry is still "in_review" with no
    approver, no row of hers is stamped, and the route answers 500 and
    leaves the stored review "pending". *)
Theorem approval_with_two_rows_fails :
  reviews db_twice !! "r1" = Some (Review.mk "e1" "pending" None)
  ∧ map ReviewParticipant.user_id
      (ReviewRepository.participants_of "r1" db_twice)
    = ["alice"; "bob"; "alice"]
  ∧ Entry.workflow_state <$> entries db_twice !! "e1" = Some "in_review"
  ∧ (ReviewService.submit_decision 3 4 "r1" approve "alice" db_twice).1
    = Raised MultipleResultsFound
  ∧ entries (ReviewService.submit_decision 3 4 "r1" approve "alice"
               db_twice).2
    = entries db_twice
  ∧ review_participants
      (ReviewService.submit_decision 3 4 "r1" approve "alice" db_twice).2
    = review_participants db_twice
  ∧ Entry.approved_by <$> entries db_twice !! "e1" = Some None
  ∧ ReviewEndpoints.submit_decision 3 4 "r1" approve "alice" db_twice
    = (HTTPException 500 MultipleResultsFound, db_twice).
Proof. vm_compute. repeat split. Qed.


(** *** Reviews have their entry *)

(** X19. Every operation keeps the entry of every review in the session,
    whatever its arguments and whether it returns or raises: a review is
    opened on an entry that exists only, its [entry_id] is never rewritten
    and no entry is removed.  A review of a missing entry is not a session
    that the operations leave. *)
Theorem reviews_keep_their_entry db :
  reviews_have_entries db →
  (∀ now entry_id new_state approved_by,
     reviews_have_entries
       (EntryService.transition_workflow now entry_id new_state approved_by
          db).2)
  ∧ (∀ now entry_id,
       reviews_have_entries (EntryService.delete_entry now entry_id db).2)
  ∧ (∀ entry_id entry_data,
       reviews_have_entries
         (EntryService.update_entry entry_id entry_data db).2)
  ∧ (∀ now new_id entry_id review_data created_by,
       reviews_have_entries
         (ReviewService.create_review now new_id entry_id review_data
            created_by db).2)
  ∧ (∀ review_id participant_data,
       reviews_have_entries
         (ReviewService.add_participant review_id participant_data db).2)
  ∧ (∀ now later review_id decision user_id,
       reviews_have_entries
         (ReviewService.submit_decision now later review_id decision user_id
            db).2).
Proof.
  intros Hkept.
  assert (Hwritten : ∀ (rows : gmap string Entry.t) id entry key,
            is_Some (entries db !! key) →
            rows = <[id := entry]> (entries db) →
            is_Some (rows !! key)).
  { intros rows id entry key Hkey ->.
    destruct (decide (id = key)) as [->|Hne].
    - rewrite lookup_insert_eq. by eexists.
    - by rewrite lookup_insert_ne. }
  split; [| split; [| split; [| split; [| split]]]].
  - intros now entry_id new_state approved_by.
    destruct (transition_workflow_session now entry_id new_state approved_by
                db) as [-> | (entry & Hentry & _ & Hrun)]; [done|].
    rewrite Hrun. intros id review Hid. cbn [snd reviews set_entries] in Hid.
    eapply Hwritten; [by eapply Hkept | done].
  - intros now entry_id.
    destruct (delete_entry_session now entry_id db)
      as [-> | (entry & Hentry & ->)]; [done|].
    intros id review Hid. cbn [reviews set_entries] in Hid.
    eapply Hwritten; [by eapply Hkept | done].
  - intros entry_id entry_data.
    destruct (update_entry_session entry_id entry_data db)
      as [-> | (entry & entry' & Hentry & _ & ->)]; [done|].
    intros id review Hid. cbn [reviews set_entries] in Hid.
    eapply Hwritten; [by eapply Hkept | done].
  - intros now new_id entry_id review_data created_by.
    destruct (create_review_session now new_id entry_id review_data
                created_by db)
      as [-> | (entry & Hentry & _ & Hfresh & Hrs & Hes)]; [done|].
    intros id review. rewrite Hrs. intros Hid.
    destruct (decide (new_id = id)) as [<-|Hne].
    + rewrite lookup_insert_eq in Hid. injection Hid as <-.
      cbn [Review.entry_id]. rewrite Hes, lookup_insert_eq. by eexists.
    + rewrite lookup_insert_ne in Hid by done.
      eapply Hwritten; [by eapply Hkept | done].
  - intros review_id participant_data.
    destruct (add_participant_session review_id participant_data db)
      as [Hes Hrs].
    intros id review. rewrite Hrs, Hes. by apply Hkept.
  - intros now later review_id decision user_id.
    destruct (submit_decision_session now later review_id decision user_id db)
      as [-> | (review0 & Hget & _ & Hrs & Hes)]; [done|].
    intros id review. rewrite Hrs. intros Hid.
    assert (Hsome : is_Some (entries db !! Review.entry_id review)).
    { destruct (decide (review_id = id)) as [<-|Hne].
      - rewrite lookup_insert_eq in Hid. injection Hid as <-.
        by apply (Hkept review_id review0).
      - rewrite lookup_insert_ne in Hid by done. by apply (Hkept id). }
    destruct Hes as [-> | (entry & entry' & _ & Hes & _)]; [done|].
    by eapply Hwritten.
Qed.

Lemma db_in_review_has_entries : reviews_have_entries db_in_review.
Proof.
  assert (Hreviews : reviews db_in_review
                     = {[ "r1" := Review.mk "e1" "pending" None ]})
    by (vm_compute; reflexivity).
  intros id review. rewrite Hreviews. intros Hid.
  apply lookup_singleton_Some in Hid as [_ <-]. cbn [Review.entry_id].
  decided_by_evaluation.
Qed.

Lemma reviews_keep_their_entry_witness :
  (∀ now entry_id new_state approved_by,
     reviews_have_entries
       (EntryService.transition_workflow now entry_id new_state approved_by
          db_in_review).2)
  ∧ (∀ now entry_id,
       reviews_have_entries
         (EntryService.delete_entry now entry_id db_in_review).2)
  ∧ (∀ entry_id entry_data,
       reviews_have_entries
         (EntryService.update_entry entry_id entry_data db_in_review).2)
  ∧ (∀ now new_id entry_id review_data created_by,
       reviews_have_entries
         (ReviewService.create_review now new_id entry_id review_data
            created_by db_in_review).2)
  ∧ (∀ review_id participant_data,
       reviews_have_entries
         (ReviewService.add_participant review_id participant_data
            db_in_review).2)
  ∧ (∀ now later review_id decision user_id,
       reviews_have_entries
         (ReviewService.submit_decision now later review_id decision user_id
            db_in_review).2).
Proof.
  apply (reviews_keep_their_entry db_in_review).
  exact db_in_review_has_entries.
Defined.
